(** * Vulcan: default mutations and the Material-UI checkbox group

    A shallow embedding of the two JavaScript units of the source file:
    the [MuiCheckboxGroup] form control ([renderElement]) and the default
    mutation factory ([getDefaultMutations], [registerCollectionCallbacks]).

    JavaScript objects with an open key set are finite maps ([gmap] with
    string keys); an absent property, [undefined] and [null] are [None];
    a thrown exception or rejected promise is the [Throw] outcome. *)

From Stdlib Require Import Ascii String ZArith Lia.
From stdpp Require Import base option list strings gmap.

Open Scope string_scope.

(** ** JavaScript string primitives *)

Module Js.

(** [String.prototype.toLowerCase] on the ASCII range: the letters
    [A]..[Z] (codes 65..90) move to [a]..[z], every other character is
    kept.  Entity type names are ASCII identifiers. *)
Definition lower_ascii (c : ascii) : ascii :=
  let n := nat_of_ascii c in
  if (65 <=? n)%nat && (n <=? 90)%nat then ascii_of_nat (n + 32) else c.

Fixpoint toLowerCase (s : string) : string :=
  match s with
  | EmptyString => EmptyString
  | String c r => String (lower_ascii c) (toLowerCase r)
  end.

(** [String.prototype.indexOf(searchString)]: the least position at which
    [t] occurs in [s], or [-1]. *)
Fixpoint indexOf_from (i : Z) (s t : string) : Z :=
  if String.prefix t s then i
  else match s with
       | EmptyString => (-1)%Z
       | String _ r => indexOf_from (i + 1) r t
       end.

Definition indexOf (s t : string) : Z := indexOf_from 0 s t.

(** Truthiness of an optional boolean property: absent counts as false. *)
Definition truthy (b : option bool) : bool := default false b.

End Js.

(** ** MuiCheckboxGroup *)

Module MuiCheckboxGroup.

(** One entry of [inputProperties.options]. *)
Record CheckboxOption := {
  value : string;
  label : string;
  disabled : bool;
}.

Record InputProperties := {
  name : string;
  options : list CheckboxOption;
  ip_disabled : bool;
  (** the form's current value: the list of selected option values *)
  ip_value : list string;
}.

Inductive Variant := checkbox | switch.

Record Props := {
  inputProperties : InputProperties;
  variant : Variant;
  (** the class names injected by [withStyles(styles)] *)
  classes : gmap string string;
}.

Inductive Component := Checkbox | Switch.

(** A rendered [FormControlLabel] with its control. *)
Record Control := {
  key : nat;
  component : Component;
  (** the instance field the [inputRef] callback assigns: name + '-' + value *)
  inputRef : string;
  checked : bool;
  control_value : string;
  control_disabled : bool;
  control_label : string;
}.

Record FormGroup := {
  className : string;
  controls : list Control;
}.

(** The [classnames] package: the truthy arguments joined by a space. *)
Fixpoint classNames (cs : list (option string)) : string :=
  match cs with
  | [] => ""
  | None :: r | Some "" :: r => classNames r
  | Some c :: r =>
      match classNames r with
      | "" => c
      | rest => c +:+ " " +:+ rest
      end
  end.

Definition renderControl (p : Props) (key : nat) (checkbox : CheckboxOption) : Control :=
  let value := value checkbox in
  let checked := negb (Js.indexOf value value =? -1)%Z in
  let disabled := disabled checkbox || ip_disabled (inputProperties p) in
  let Component := match variant p with switch => Switch | checkbox => Checkbox end in
  {| key := key;
     component := Component;
     inputRef := name (inputProperties p) +:+ "-" +:+ value;
     checked := checked;
     control_value := value;
     control_disabled := disabled;
     control_label := label checkbox |}.

(** [options.reduce((max, option) => option.label.length > max ?
    option.label.length : max, 0)] *)
Definition maxLength (options : list CheckboxOption) : nat :=
  fold_left (fun max option =>
               if (max <? String.length (label option))%nat
               then String.length (label option) else max)
            options 0%nat.

Definition columnClass (options : list CheckboxOption) : string :=
  if (maxLength options <? 20)%nat then "threeColumn"
  else if (maxLength options <? 30)%nat then "twoColumn"
  else "".

Definition renderElement (p : Props) : FormGroup :=
  let options := options (inputProperties p) in
  let controls := imap (renderControl p) options in
  {| className := classNames [classes p !! "group"; classes p !! columnClass options];
     controls := controls |}.

(** The length of an option's label, [option.label.length]. *)
Definition labelLength (o : CheckboxOption) : nat := String.length (label o).

(** The same props with another current form value. *)
Definition setValue (p : Props) (v : list string) : Props :=
  {| inputProperties :=
       {| name := name (inputProperties p); options := options (inputProperties p);
          ip_disabled := ip_disabled (inputProperties p); ip_value := v |};
     variant := variant p; classes := classes p |}.

(** A two-option group as a form would pass it. *)
Definition sample : Props :=
  {| inputProperties :=
       {| name := "colours";
          options := [ {| value := "red"; label := "Red"; disabled := false |};
                       {| value := ""; label := "None of the above, thank you"; disabled := true |} ];
          ip_disabled := false;
          ip_value := [] |};
     variant := checkbox;
     classes := <["group" := "jss1"]> (<["twoColumn" := "jss2"]> (<["threeColumn" := "jss3"]> ∅)) |}.

(** Other options whose labels are as long as the sample's: 3 and 28
    characters. *)
Definition relabelled : list CheckboxOption :=
  [ {| value := "x"; label := "Abc"; disabled := false |};
    {| value := "y"; label := "No thanks, none of the above"; disabled := false |} ].

End MuiCheckboxGroup.

(** ** Callback registry entries *)

Record CallbackDefinition := {
  name : string;
  (** the ordered [{ argument: description }] entries *)
  arguments : list (string * string);
  runs : string;
  (** [None] is JavaScript's [null] *)
  returns : option string;
  description : string;
}.

(** [registerCollectionCallbacks]: eleven [registerCallback] calls in
    source order.  [registerCallback] belongs to the library package and is
    taken as a parameter acting on the process-wide registry. *)
Section RegisterCollectionCallbacks.
Context {Registry : Type}.
Variable registerCallback : CallbackDefinition → Registry → Registry.

Definition registerCollectionCallbacks (collectionName : string) (r : Registry) : Registry :=
  let collectionName := Js.toLowerCase collectionName in
  let r := registerCallback {|
    name := collectionName +:+ ".create.validate";
    arguments := [
      ("document", "The document being inserted");
      ("currentUser", "The current user");
      ("validationErrors", "An object that can be used to accumulate validation errors")];
    runs := "sync";
    returns := Some "document";
    description := "Validate a document before insertion (can be skipped when inserting directly on server).";
  |} r in
  let r := registerCallback {|
    name := collectionName +:+ ".create.before";
    arguments := [("document", "The document being inserted"); ("currentUser", "The current user")];
    runs := "sync";
    returns := Some "document";
    description := "Perform operations on a new document before it's inserted in the database.";
  |} r in
  let r := registerCallback {|
    name := collectionName +:+ ".create.after";
    arguments := [("document", "The document being inserted"); ("currentUser", "The current user")];
    runs := "sync";
    returns := Some "document";
    description := "Perform operations on a new document after it's inserted in the database but *before* the mutation returns it.";
  |} r in
  let r := registerCallback {|
    name := collectionName +:+ ".create.async";
    arguments := [
      ("document", "The document being inserted");
      ("currentUser", "The current user");
      ("collection", "The collection the document belongs to")];
    runs := "async";
    returns := None;
    description := "Perform operations on a new document after it's inserted in the database asynchronously.";
  |} r in
  let r := registerCallback {|
    name := collectionName +:+ ".update.validate";
    arguments := [
      ("modifier", "The MongoDB modifier");
      ("document", "The document being edited");
      ("currentUser", "The current user");
      ("validationErrors", "An object that can be used to accumulate validation errors")];
    runs := "sync";
    returns := Some "modifier";
    description := "Validate a document before update (can be skipped when updating directly on server).";
  |} r in
  let r := registerCallback {|
    name := collectionName +:+ ".update.before";
    arguments := [
      ("modifier", "The MongoDB modifier");
      ("document", "The document being edited");
      ("currentUser", "The current user")];
    runs := "sync";
    returns := Some "modifier";
    description := "Perform operations on a document before it's updated in the database.";
  |} r in
  let r := registerCallback {|
    name := collectionName +:+ ".update.after";
    arguments := [
      ("modifier", "The MongoDB modifier");
      ("document", "The document being edited");
      ("currentUser", "The current user")];
    runs := "sync";
    returns := Some "document";
    description := "Perform operations on a document after it's updated in the database but *before* the mutation returns it.";
  |} r in
  let r := registerCallback {|
    name := collectionName +:+ ".update.async";
    arguments := [
      ("newDocument", "The document after the edit");
      ("document", "The document before the edit");
      ("currentUser", "The current user");
      ("collection", "The collection the document belongs to")];
    runs := "async";
    returns := None;
    description := "Perform operations on a document after it's updated in the database asynchronously.";
  |} r in
  let r := registerCallback {|
    name := collectionName +:+ ".delete.validate";
    arguments := [
      ("document", "The document being removed");
      ("currentUser", "The current user");
      ("validationErrors", "An object that can be used to accumulate validation errors")];
    runs := "sync";
    returns := Some "document";
    description := "Validate a document before removal (can be skipped when removing directly on server).";
  |} r in
  let r := registerCallback {|
    name := collectionName +:+ ".delete.before";
    arguments := [("document", "The document being removed"); ("currentUser", "The current user")];
    runs := "sync";
    returns := None;
    description := "Perform operations on a document before it's removed from the database.";
  |} r in
  registerCallback {|
    name := collectionName +:+ ".delete.async";
    arguments := [
      ("document", "The document being removed");
      ("currentUser", "The current user");
      ("collection", "The collection the document belongs to")];
    runs := "async";
    returns := None;
    description := "Perform operations on a document after it's removed from the database asynchronously.";
  |} r.
End RegisterCollectionCallbacks.

(** The registry as the plain sequence of registered definitions. *)
Definition pushCallback (d : CallbackDefinition) (r : list CallbackDefinition) : list CallbackDefinition :=
  r ++ [d].

(** What a fresh registry holds after one [registerCollectionCallbacks]. *)
Definition registeredCallbacks (collectionName : string) : list CallbackDefinition :=
  registerCollectionCallbacks pushCallback collectionName [].

(** The lifecycle grid of the specification: actions and phases. *)
Definition actions : list string := ["create"; "update"; "delete"].
Definition phases : list string := ["validate"; "before"; "after"; "async"].

Definition callbackName (typeName action phase : string) : string :=
  Js.toLowerCase typeName +:+ "." +:+ action +:+ "." +:+ phase.

(** The action and phase pairs that have a callback: the grid without
    the after phase of delete. *)
Definition lifecycle : list (string * string) :=
  filter (λ ap, ap ≠ ("delete", "after")) (list_prod actions phases).

(** Validate, before and after callbacks run in line; the async phase runs
    detached. *)
Definition runMode (phase : string) : string :=
  if decide (phase = "async") then "async" else "sync".

(** ** Default mutations *)

Inductive Error :=
| TypeError            (* property access or destructuring on undefined *)
| AuthorizationDenied  (* the permission check failed *)
| Failure (msg : string). (* raised by a connector or a mutator *)

Inductive Outcome (A : Type) :=
| Return (a : A)
| Throw (e : Error).
Arguments Return {A} a.
Arguments Throw {A} e.

Section DefaultMutations.
Context {User Document Collection Store Root Registry : Type}.

Record Input := {
  input_selector : option (gmap string string);
  input_data : option Document;
}.

(** The second argument of a mutation handler.  The handlers read its
    [input] property; [upsert] passes objects with [selector] and [data]
    properties instead. *)
Record Args := {
  args_input : option Input;
  args_selector : option (gmap string string);
  args_data : option Document;
}.

Record RequestContext := {
  currentUser : option User;
  (** [context[typeName]] *)
  collections : gmap string Collection;
}.

(** Second argument of [Connectors.get]: a document id, or a selector
    object together with the projection [{ fields: { _id: 1 } }]. *)
Inductive Query :=
| ById (documentId : option string)
| BySelector (selector : option (gmap string string)).

Record CreateMutatorArgs := {
  cm_collection : option Collection;
  cm_data : option Document;
  cm_currentUser : option User;
  cm_validate : bool;
  cm_context : RequestContext;
}.

Record UpdateMutatorArgs := {
  um_collection : option Collection;
  um_documentId : option string;
  um_data : option Document;
  um_currentUser : option User;
  um_validate : bool;
  um_context : RequestContext;
}.

Record DeleteMutatorArgs := {
  dm_collection : option Collection;
  dm_documentId : option string;
  dm_currentUser : option User;
  dm_validate : bool;
  dm_context : RequestContext;
}.

(** The calls a handler makes, in the order it makes them. *)
Inductive Event :=
| EvGet (collection : option Collection) (q : Query)
| EvCheck (user : option User) (document : option Document)
| EvCreateMutator (a : CreateMutatorArgs)
| EvUpdateMutator (a : UpdateMutatorArgs)
| EvDeleteMutator (a : DeleteMutatorArgs)
| EvDispatch (slot : string) (args : Args).

Definition persistence_call (e : Event) : bool :=
  match e with
  | EvCreateMutator _ | EvUpdateMutator _ | EvDeleteMutator _ => true
  | _ => false
  end.

Record World := {
  store : Store;
  trace : list Event;
}.

(** Handlers: state passing over the world, with exceptions. *)
Definition M (A : Type) : Type := World → Outcome A * World.

Definition ret {A} (a : A) : M A := fun w => (Return a, w).
Definition throw {A} (e : Error) : M A := fun w => (Throw e, w).
Definition bind {A B} (m : M A) (k : A → M B) : M B :=
  fun w => match m w with
           | (Return a, w') => k a w'
           | (Throw e, w') => (Throw e, w')
           end.
(** The world after further calls. *)
Definition logged (w : World) (evs : list Event) : World :=
  {| store := store w; trace := trace w ++ evs |}.
Definition log (e : Event) : M unit :=
  fun w => (Return (), logged w [e]).
(** Reading a property of, or destructuring, a possibly undefined value. *)
Definition defined {A} (o : option A) : M A :=
  match o with
  | Some a => ret a
  | None => throw TypeError
  end.

Notation "'let!' x ':=' m 'in' k" := (bind m (fun x => k))
  (at level 10, x name, m at level 100, k at level 200).

Definition CheckFn : Type := option User → option Document → bool.

Record Descriptor := {
  descriptor_description : string;
  check : option CheckFn;
  mutation : Root → Args → RequestContext → M Document;
}.

Record Options := {
  create : option bool;
  update : option bool;
  upsert : option bool;
  delete : option bool;
  newCheck : option CheckFn;
  editCheck : option CheckFn;
  removeCheck : option CheckFn;
}.

(** The default value of the [options] parameter. *)
Definition defaultOptions : Options :=
  {| create := Some true; update := Some true; upsert := Some true; delete := Some true;
     newCheck := None; editCheck := None; removeCheck := None |}.

(** What the handlers import from the library and user packages. *)
Record Backend := {
  Users_owns : User → Document → bool;
  Users_canDo : option User → string → bool;
  Connectors_get : option Collection → Query → Store → Outcome (option Document);
  createMutator : CreateMutatorArgs → Store → Outcome Document * Store;
  updateMutator : UpdateMutatorArgs → Store → Outcome Document * Store;
  deleteMutator : DeleteMutatorArgs → Store → Outcome Document * Store;
  registerCallback : CallbackDefinition → Registry → Registry;
  (** [collection.options.mutations] *)
  collection_mutations : Collection → option (gmap string Descriptor);
}.

Variable B : Backend.

(** Modelled from the spec: [Utils.performCheck] of the library package,
    whose source is not part of this unit.  The operation is evaluated on
    the user and the checked object, and a false result rejects the
    request with an authorization error (specification 4.1 and 4.3).
    The delete handler passes the context as a further argument. *)
Definition performCheck (operation : CheckFn) (user : option User)
    (checkedObject : option Document) (context : option RequestContext) : M unit :=
  let! _ := log (EvCheck user checkedObject) in
  if operation user checkedObject then ret () else throw AuthorizationDenied.

(** [await Connectors.get(collection, ...)]: a read of the store. *)
Definition get (collection : option Collection) (q : Query) : M (option Document) :=
  let! _ := log (EvGet collection q) in
  fun w => (Connectors_get B collection q (store w), w).

(** [await xMutator({ ... })]: the persistence helpers act on the store. *)
Definition persist {A} (call : A → Event) (helper : A → Store → Outcome Document * Store)
    (a : A) : M Document :=
  let! _ := log (call a) in
  fun w => let (r, st) := helper a (store w) in (r, {| store := st; trace := trace w |}).

Section Handlers.
Variable typeName : string.
Variable options : Options.

(** *** create *)

Definition create_check : CheckFn := fun user document =>
  match newCheck options with
  | Some newCheck => newCheck user document
  | None => Users_canDo B user (Js.toLowerCase typeName +:+ ".new")
  end.

Definition create_mutation (root : Root) (args : Args) (context : RequestContext) : M Document :=
  let! input := defined (args_input args) in
  let data := input_data input in
  let collection := collections context !! typeName in
  let! _ := performCheck create_check (currentUser context) data None in
  persist EvCreateMutator (createMutator B)
    {| cm_collection := collection; cm_data := data; cm_currentUser := currentUser context;
       cm_validate := true; cm_context := context |}.

(** *** update *)

Definition update_check : CheckFn := fun user document =>
  match editCheck options with
  | Some editCheck => editCheck user document
  | None =>
      match user, document with
      | Some u, Some d =>
          if Users_owns B u d
          then Users_canDo B user (Js.toLowerCase typeName +:+ ".edit.own")
          else Users_canDo B user (Js.toLowerCase typeName +:+ ".edit.all")
      | _, _ => false
      end
  end.

Definition update_mutation (root : Root) (args : Args) (context : RequestContext) : M Document :=
  let! input := defined (args_input args) in
  let data := input_data input in
  let! selector := defined (input_selector input) in
  let documentId := selector !! "documentId" in
  let collection := collections context !! typeName in
  let! document := get collection (ById documentId) in
  let! _ := performCheck update_check (currentUser context) document None in
  persist EvUpdateMutator (updateMutator B)
    {| um_collection := collection; um_documentId := documentId; um_data := data;
       um_currentUser := currentUser context; um_validate := true; um_context := context |}.

(** *** upsert *)

(** [collection.options.mutations.<slot>.mutation(root, args, context)]:
    every property read on the way fails on an undefined value. *)
Definition dispatch (collection : option Collection) (slot : string)
    (root : Root) (args : Args) (context : RequestContext) : M Document :=
  let! collection := defined collection in
  let! mutations := defined (collection_mutations B collection) in
  let! descriptor := defined (mutations !! slot) in
  let! _ := log (EvDispatch slot args) in
  mutation descriptor root args context.

Definition upsert_mutation (root : Root) (args : Args) (context : RequestContext) : M Document :=
  let! input := defined (args_input args) in
  let selector := input_selector input in
  let data := input_data input in
  let collection := collections context !! typeName in
  let! existingDocument := get collection (BySelector selector) in
  match existingDocument with
  | Some _ =>
      dispatch collection "update" root
        {| args_input := None; args_selector := selector; args_data := data |} context
  | None =>
      dispatch collection "create" root
        {| args_input := None; args_selector := None; args_data := data |} context
  end.

(** *** delete *)

Definition delete_check : CheckFn := fun user document =>
  match removeCheck options with
  | Some removeCheck => removeCheck user document
  | None =>
      match user, document with
      | Some u, Some d =>
          if Users_owns B u d
          then Users_canDo B user (Js.toLowerCase typeName +:+ ".remove.own")
          else Users_canDo B user (Js.toLowerCase typeName +:+ ".remove.all")
      | _, _ => false
      end
  end.

Definition delete_mutation (root : Root) (args : Args) (context : RequestContext) : M Document :=
  let! input := defined (args_input args) in
  let! selector := defined (input_selector input) in
  let documentId := selector !! "documentId" in
  let collection := collections context !! typeName in
  let! document := get collection (ById documentId) in
  let! _ := performCheck delete_check (currentUser context) document (Some context) in
  persist EvDeleteMutator (deleteMutator B)
    {| dm_collection := collection; dm_documentId := documentId;
       dm_currentUser := currentUser context; dm_validate := true; dm_context := context |}.

(** The four descriptor objects.  A handler is called as a method of
    its descriptor, so [this.check] is the descriptor's own [check]. *)
Definition createDescriptor : Descriptor :=
  {| descriptor_description := "Mutation for creating new " +:+ typeName +:+ " documents";
     check := Some create_check;
     mutation := create_mutation |}.

Definition updateDescriptor : Descriptor :=
  {| descriptor_description := "Mutation for updating a " +:+ typeName +:+ " document";
     check := Some update_check;
     mutation := update_mutation |}.

Definition upsertDescriptor : Descriptor :=
  {| descriptor_description := "Mutation for upserting a " +:+ typeName +:+ " document";
     check := None;
     mutation := upsert_mutation |}.

Definition deleteDescriptor : Descriptor :=
  {| descriptor_description := "Mutation for deleting a " +:+ typeName +:+ " document";
     check := Some delete_check;
     mutation := delete_mutation |}.

(** The body of [getDefaultMutations] after the callbacks are
    registered: the [mutations] object, one property per enabled flag. *)
Definition buildMutations : gmap string Descriptor :=
  let mutations : gmap string Descriptor := ∅ in
  let mutations :=
    if Js.truthy (create options) then <["create" := createDescriptor]> mutations
    else mutations in
  let mutations :=
    if Js.truthy (update options) then <["update" := updateDescriptor]> mutations
    else mutations in
  let mutations :=
    if Js.truthy (upsert options) then <["upsert" := upsertDescriptor]> mutations
    else mutations in
  let mutations :=
    if Js.truthy (delete options) then <["delete" := deleteDescriptor]> mutations
    else mutations in
  mutations.
End Handlers.

(** [getDefaultMutations(typeName, options = defaultOptions)]: an omitted
    argument ([None]) takes the default object; the result is paired with
    the registry after [registerCollectionCallbacks(typeName)]. *)
Definition getDefaultMutations (typeName : string) (options : option Options)
    (registry : Registry) : gmap string Descriptor * Registry :=
  let options := default defaultOptions options in
  let registry := registerCollectionCallbacks (registerCallback B) typeName registry in
  (buildMutations typeName options, registry).
End DefaultMutations.

(** The option flag that governs a property of the [mutations] object. *)
Definition flag {User Document : Type} (slot : string) (options : @Options User Document) : option bool :=
  if decide (slot = "create") then create options
  else if decide (slot = "update") then update options
  else if decide (slot = "upsert") then upsert options
  else if decide (slot = "delete") then delete options
  else None.

(** [collection.options.mutations[slot]], when every object on the path
    and the property itself exist. *)
Definition registeredMutation {User Document Collection Store Root Registry : Type}
    (B : @Backend User Document Collection Store Root Registry)
    (collection : option Collection) (slot : string)
    : option (@Descriptor User Document Collection Store Root) :=
  match collection with
  | Some c =>
      match collection_mutations B c with
      | Some mutations => mutations !! slot
      | None => None
      end
  | None => None
  end.

(** Options that enable one mutation only, as in [{ create: true }]. *)
Definition only {User Document : Type} (slot : string) : @Options User Document :=
  {| create := if decide (slot = "create") then Some true else None;
     update := if decide (slot = "update") then Some true else None;
     upsert := if decide (slot = "upsert") then Some true else None;
     delete := if decide (slot = "delete") then Some true else None;
     newCheck := None; editCheck := None; removeCheck := None |}.

(** ** A concrete deployment: a collection of posts

    Users carry the list of actions their groups grant, a post belongs to
    the user whose id it records, and the store maps ids to posts. *)

Module Posts.

Record user := {
  user_id : string;
  user_actions : list string;
}.

Record post := {
  post_id : string;
  post_userId : string;
  post_title : string;
}.

Definition owns (u : user) (d : post) : bool :=
  bool_decide (user_id u = post_userId d).

Definition canDo (u : option user) (action : string) : bool :=
  match u with
  | Some u => bool_decide (action ∈ user_actions u)
  | None => false
  end.

Definition find (collection : option string) (q : Query) (st : gmap string post)
    : Outcome (option post) :=
  match q with
  | ById (Some documentId) => Return (st !! documentId)
  | BySelector (Some selector) => Return (selector !! "documentId" ≫= λ i, st !! i)
  | ById None | BySelector None => Return None
  end.

Definition insertPost (a : @CreateMutatorArgs user post string) (st : gmap string post)
    : Outcome post * gmap string post :=
  match cm_data a with
  | Some d => (Return d, <[post_id d := d]> st)
  | None => (Throw (Failure "no data"), st)
  end.

Definition replacePost (a : @UpdateMutatorArgs user post string) (st : gmap string post)
    : Outcome post * gmap string post :=
  match um_documentId a, um_data a with
  | Some i, Some d => (Return d, <[i := d]> st)
  | _, _ => (Throw (Failure "no document"), st)
  end.

Definition removePost (a : @DeleteMutatorArgs user string) (st : gmap string post)
    : Outcome post * gmap string post :=
  match dm_documentId a ≫= λ i, (λ d, (i, d)) <$> st !! i with
  | Some (i, d) => (Return d, base.delete i st)
  | None => (Throw (Failure "no document"), st)
  end.

(** The backend, given what each collection registered as its mutations. *)
Definition backend
    (registered : string → option (gmap string (@Descriptor user post string (gmap string post) unit)))
    : @Backend user post string (gmap string post) unit (list CallbackDefinition) :=
  {| Users_owns := owns;
     Users_canDo := canDo;
     Connectors_get := find;
     createMutator := insertPost;
     updateMutator := replacePost;
     deleteMutator := removePost;
     registerCallback := pushCallback;
     collection_mutations := registered |}.

(** The mutations a collection obtains from [getDefaultMutations]. *)
Definition generated (options : option Options)
    : gmap string (@Descriptor user post string (gmap string post) unit) :=
  (getDefaultMutations (backend (λ _, None)) "Posts" options []).1.

(** A second authorization oracle: nobody owns or may do anything. *)
Definition lockedBackend : @Backend user post string (gmap string post) unit (list CallbackDefinition) :=
  {| Users_owns := λ _ _, false;
     Users_canDo := λ _ _, false;
     Connectors_get := find;
     createMutator := insertPost;
     updateMutator := replacePost;
     deleteMutator := removePost;
     registerCallback := pushCallback;
     collection_mutations := λ _, None |}.

Definition alice : user :=
  {| user_id := "alice";
     user_actions := ["posts.new"; "posts.edit.own"; "posts.remove.own"] |}.
Definition bob : user := {| user_id := "bob"; user_actions := [] |}.
Definition hello : post := {| post_id := "p1"; post_userId := "alice"; post_title := "Hello" |}.
Definition draft : post := {| post_id := "p2"; post_userId := "bob"; post_title := "Draft" |}.

Definition context (u : option user) : @RequestContext user string :=
  {| currentUser := u; collections := {["Posts" := "posts"]} |}.

Definition world : @World user post string (gmap string post) :=
  {| store := {["p1" := hello]}; trace := [] |}.

Definition byId (i : string) : gmap string string := {["documentId" := i]}.

(** Well-formed handler arguments: [{ input: { selector, data } }]. *)
Definition input (selector : option (gmap string string)) (data : option post) : @Args post :=
  {| args_input := Some {| input_selector := selector; input_data := data |};
     args_selector := None; args_data := None |}.

(** The backend of a deployment whose collection registered the
    mutations generated under [options]. *)
Definition deployed (options : option Options)
    : @Backend user post string (gmap string post) unit (list CallbackDefinition) :=
  backend (λ _, Some (generated options)).

(** Options whose three checks are replaced by one override. *)
Definition overridden (f : option user → option post → bool) : @Options user post :=
  {| create := Some true; update := Some true; upsert := Some true; delete := Some true;
     newCheck := Some f; editCheck := Some f; removeCheck := Some f |}.

(** An override that admits exactly the signed-in users. *)
Definition signedIn (u : option user) (d : option post) : bool :=
  match u with Some _ => true | None => false end.

End Posts.

(** ** The checkbox group's change handler *)

Module MuiCheckboxGroupInstance.

(** The instance field under which the [inputRef] callback of a control
    keeps its element: name + '-' + value. *)
Definition fieldName (name value : string) : string := name +:+ "-" +:+ value.

(** [changeCheckbox]: the loop over the options pushes the value of every
    option whose element is checked; [fields] gives, for the instance
    fields that hold an element, the element's [checked] flag, and reading
    [checked] off a field that holds none throws.  [Return value] stands
    for the final call [this.props.onChange(value)]. *)
Definition changeCheckbox (p : MuiCheckboxGroup.Props) (fields : gmap string bool)
    : Outcome (list string) :=
  let name := MuiCheckboxGroup.name (MuiCheckboxGroup.inputProperties p) in
  let options := MuiCheckboxGroup.options (MuiCheckboxGroup.inputProperties p) in
  fold_left
    (fun (value : Outcome (list string)) option =>
       match value with
       | Throw e => Throw e
       | Return value =>
           match fields !! (name +:+ "-" +:+ MuiCheckboxGroup.value option) with
           | Some true => Return (value ++ [MuiCheckboxGroup.value option])%list
           | Some false => Return value
           | None => Throw TypeError
           end
       end)
    options (Return []).

(** The [inputRef] callbacks of the rendered controls, each called with
    the element mounted for its control: [this[name + '-' + value] = c]. *)
Definition attachRefs (controls : list MuiCheckboxGroup.Control) (elements : list bool)
    (fields : gmap string bool) : gmap string bool :=
  fold_left (fun fields ce => <[MuiCheckboxGroup.inputRef ce.1 := ce.2]> fields)
    (zip controls elements) fields.

End MuiCheckboxGroupInstance.

(** The name suffixes of the registered callbacks, in source order. *)
Definition callbackSuffixes : list string :=
  [".create.validate"; ".create.before"; ".create.after"; ".create.async";
   ".update.validate"; ".update.before"; ".update.after"; ".update.async";
   ".delete.validate"; ".delete.before"; ".delete.async"].

(** Options with no flag set, as in [{}]. *)
Definition noOptions {User Document : Type} : @Options User Document :=
  {| create := None; update := None; upsert := None; delete := None;
     newCheck := None; editCheck := None; removeCheck := None |}.

(** The posts backend while its connector is unreachable. *)
Definition offlinePosts
    : @Backend Posts.user Posts.post string (gmap string Posts.post) unit
        (list CallbackDefinition) :=
  {| Users_owns := Posts.owns;
     Users_canDo := Posts.canDo;
     Connectors_get := λ _ _ _, Throw (Failure "offline");
     createMutator := Posts.insertPost;
     updateMutator := Posts.replacePost;
     deleteMutator := Posts.removePost;
     registerCallback := pushCallback;
     collection_mutations := λ _, None |}.

(** Handler arguments without an [input] property. *)
Definition bareArgs : @Args Posts.post :=
  {| args_input := None; args_selector := None; args_data := Some Posts.draft |}.

(** * Properties *)

(** ** JavaScript string primitives *)

Lemma prefix_refl (s : string) : String.prefix s s = true.
Proof.
  induction s as [|c s IH]; simpl; [done|].
  destruct (ascii_dec c c); [exact IH | congruence].
Qed.

(** A string occurs in itself at position 0. *)
Lemma indexOf_self (s : string) : Js.indexOf s s = 0%Z.
Proof.
  unfold Js.indexOf. destruct s as [|a s]; simpl; [done|].
  destruct (ascii_dec a a); [|congruence]. by rewrite prefix_refl.
Qed.

Example toLowerCase_Posts : Js.toLowerCase "Posts" = "posts".
Proof. reflexivity. Qed.

Example indexOf_inside : Js.indexOf "checkbox" "box" = 5%Z.
Proof. reflexivity. Qed.

Example indexOf_missing : Js.indexOf "checkbox" "switch" = (-1)%Z.
Proof. reflexivity. Qed.

Lemma truthy_true (b : option bool) : Js.truthy b = true ↔ b = Some true.
Proof. destruct b as [[]|]; simpl; split; congruence. Qed.

Lemma is_Some_enabled {A} (b : option bool) (x : A) :
  is_Some (if Js.truthy b then Some x else None) ↔ b = Some true.
Proof.
  rewrite <- truthy_true. by destruct (Js.truthy b); split; intros Hs.
Qed.

(** ** The checkbox group *)

Section CheckboxGroupFacts.
Import MuiCheckboxGroup.

Lemma maxLength_fold (options : list CheckboxOption) (a : nat) :
  fold_left (fun max option =>
               if (max <? String.length (label option))%nat
               then String.length (label option) else max) options a
  = a `max` max_list (labelLength <$> options).
Proof.
  revert a. induction options as [|o os IH]; intros a.
  - simpl. lia.
  - rewrite fmap_cons. cbn [fold_left]. rewrite IH.
    change (max_list (labelLength o :: (labelLength <$> os)))
      with (labelLength o `max` max_list (labelLength <$> os)).
    fold (labelLength o).
    destruct (Nat.ltb_spec a (labelLength o)); lia.
Qed.

(** The reduction computes the greatest label length, 0 for no option. *)
Lemma maxLength_max_list options : maxLength options = max_list (labelLength <$> options).
Proof. unfold maxLength. by rewrite maxLength_fold. Qed.

(** C8: the group's class list is the group class and the class stored
    under the column key, and that key depends on the labels' lengths
    alone: with [max] the greatest label length (0 for no option) it is
    threeColumn when [max < 20], twoColumn when [20 <= max < 30], and the
    empty key otherwise. *)
Theorem columnClass_from_label_lengths (p : Props) :
  let options := options (inputProperties p) in
  let max := max_list (labelLength <$> options) in
  className (renderElement p)
    = classNames [classes p !! "group"; classes p !! columnClass options]
  ∧ columnClass options
    = (if decide (max < 20) then "threeColumn"
       else if decide (max < 30) then "twoColumn" else "")
  ∧ ∀ options', labelLength <$> options' = labelLength <$> options →
                columnClass options' = columnClass options.
Proof.
  intros options max. split; [done|]. split.
  - unfold columnClass. rewrite maxLength_max_list. fold max.
    destruct (Nat.ltb_spec max 20), (Nat.ltb_spec max 30); repeat case_decide; done || lia.
  - intros options' Heq. unfold columnClass. by rewrite !maxLength_max_list, Heq.
Qed.

(** C9: every option is rendered as a checked control carrying the
    option's value, because the value is searched in itself; the current
    form value plays no part in the rendering. *)
Theorem renderElement_always_checked (p : Props) :
  (∀ i o, options (inputProperties p) !! i = Some o →
     ∃ c, controls (renderElement p) !! i = Some c
          ∧ control_value c = value o ∧ checked c = true)
  ∧ ∀ v, renderElement (setValue p v) = renderElement p.
Proof.
  split.
  - intros i o Hio. exists (renderControl p i o). split.
    + unfold renderElement; simpl. by rewrite list_lookup_imap, Hio.
    + split; [done|]. unfold renderControl; simpl. by rewrite indexOf_self.
  - intros v. unfold renderElement; simpl. f_equal.
Qed.

(** The sample group: its longest label has 28 characters, so the group
    gets the two-column class, and both controls are checked although the
    form's value is empty. *)
Example sample_rendering :
  className (renderElement sample) = "jss1 jss2"
  ∧ checked <$> controls (renderElement sample) = [true; true]
  ∧ inputRef <$> controls (renderElement sample) = ["colours-red"; "colours-"].
Proof. by vm_compute. Qed.

End CheckboxGroupFacts.

(** ** Default mutations *)

Section MutationFacts.
Context {User Document Collection Store Root Registry : Type}.
Implicit Types (B : @Backend User Document Collection Store Root Registry).
Implicit Types (T : string) (opts : @Options User Document).
Implicit Types (options : option (@Options User Document)).
Implicit Types (w : @World User Document Collection Store).
Implicit Types (d : @Descriptor User Document Collection Store Root).

Lemma buildMutations_lookup B T opts (k : string) :
  buildMutations B T opts !! k =
    if decide (k = "create") then
      if Js.truthy (create opts) then Some (createDescriptor B T opts) else None
    else if decide (k = "update") then
      if Js.truthy (update opts) then Some (updateDescriptor B T opts) else None
    else if decide (k = "upsert") then
      if Js.truthy (upsert opts) then Some (upsertDescriptor B T) else None
    else if decide (k = "delete") then
      if Js.truthy (delete opts) then Some (deleteDescriptor B T opts) else None
    else None.
Proof.
  unfold buildMutations.
  destruct (Js.truthy (create opts)), (Js.truthy (update opts)),
    (Js.truthy (upsert opts)), (Js.truthy (delete opts));
    repeat case_decide; by simplify_map_eq.
Qed.

Lemma getDefaultMutations_fst B T options (reg : Registry) :
  (getDefaultMutations B T options reg).1
  = buildMutations B T (default defaultOptions options).
Proof. done. Qed.

(** A property of the result exists exactly when its flag is [true]. *)
Lemma mutation_present_iff B T options (reg : Registry) (slot : string) :
  is_Some ((getDefaultMutations B T options reg).1 !! slot)
  ↔ flag slot (default defaultOptions options) = Some true.
Proof.
  rewrite getDefaultMutations_fst, buildMutations_lookup. unfold flag.
  repeat case_decide; try apply is_Some_enabled.
  split; [intros [? ?]|]; discriminate.
Qed.

(** C7: the object returned by getDefaultMutations has a property for a
    slot exactly when that slot's flag is true, the property is then the
    descriptor of that mutation, and with the options argument omitted the
    properties are create, update, upsert and delete. *)
Theorem getDefaultMutations_descriptors B T options (reg : Registry) :
  let mutations := (getDefaultMutations B T options reg).1 in
  let opts := default defaultOptions options in
  (∀ slot : string, is_Some (mutations !! slot) ↔ flag slot opts = Some true)
  ∧ mutations !! "create"
    = (if Js.truthy (create opts) then Some (createDescriptor B T opts) else None)
  ∧ mutations !! "update"
    = (if Js.truthy (update opts) then Some (updateDescriptor B T opts) else None)
  ∧ mutations !! "upsert"
    = (if Js.truthy (upsert opts) then Some (upsertDescriptor B T) else None)
  ∧ mutations !! "delete"
    = (if Js.truthy (delete opts) then Some (deleteDescriptor B T opts) else None)
  ∧ dom (getDefaultMutations B T None reg).1
    = ({["create"; "update"; "upsert"; "delete"]} : gset string).
Proof.
  intros mutations opts. subst mutations.
  split; [|rewrite getDefaultMutations_fst; fold opts; split_and!; try (by rewrite buildMutations_lookup)].
  - intros slot. apply mutation_present_iff.
  - apply set_eq. intros k. rewrite elem_of_dom, getDefaultMutations_fst, buildMutations_lookup.
    simpl. rewrite !elem_of_union, !elem_of_singleton.
    repeat case_decide; subst; split; intros Hs; eauto; try (exfalso; intuition congruence).
    by destruct Hs.
Qed.

Lemma lookup_create B T options (reg : Registry) d :
  (getDefaultMutations B T options reg).1 !! "create" = Some d →
  d = createDescriptor B T (default defaultOptions options).
Proof.
  rewrite getDefaultMutations_fst, buildMutations_lookup; simpl.
  destruct (Js.truthy _); congruence.
Qed.

Lemma lookup_update B T options (reg : Registry) d :
  (getDefaultMutations B T options reg).1 !! "update" = Some d →
  d = updateDescriptor B T (default defaultOptions options).
Proof.
  rewrite getDefaultMutations_fst, buildMutations_lookup; simpl.
  destruct (Js.truthy _); congruence.
Qed.

Lemma lookup_delete B T options (reg : Registry) d :
  (getDefaultMutations B T options reg).1 !! "delete" = Some d →
  d = deleteDescriptor B T (default defaultOptions options).
Proof.
  rewrite getDefaultMutations_fst, buildMutations_lookup; simpl.
  destruct (Js.truthy _); congruence.
Qed.

(** C1: with no override configured, the check of the update descriptor
    is false when the user or the document is absent, and on a present
    user and document it is true exactly when the user owns the document
    and may do [type.edit.own], or does not own it and may do
    [type.edit.all], [type] being the lower-cased type name; the delete
    descriptor does the same with [remove.own] and [remove.all]. *)
Theorem default_update_delete_check B T options (reg : Registry) :
  let mutations := (getDefaultMutations B T options reg).1 in
  let opts := default defaultOptions options in
  let type := Js.toLowerCase T in
  (editCheck opts = None → ∀ d, mutations !! "update" = Some d →
     ∃ chk, check d = Some chk
       ∧ (∀ document, chk None document = false)
       ∧ (∀ user, chk user None = false)
       ∧ (∀ u doc, chk (Some u) (Some doc) = true ↔
            (Users_owns B u doc = true
             ∧ Users_canDo B (Some u) (type +:+ ".edit.own") = true)
            ∨ (Users_owns B u doc = false
               ∧ Users_canDo B (Some u) (type +:+ ".edit.all") = true)))
  ∧ (removeCheck opts = None → ∀ d, mutations !! "delete" = Some d →
     ∃ chk, check d = Some chk
       ∧ (∀ document, chk None document = false)
       ∧ (∀ user, chk user None = false)
       ∧ (∀ u doc, chk (Some u) (Some doc) = true ↔
            (Users_owns B u doc = true
             ∧ Users_canDo B (Some u) (type +:+ ".remove.own") = true)
            ∨ (Users_owns B u doc = false
               ∧ Users_canDo B (Some u) (type +:+ ".remove.all") = true))).
Proof.
  intros mutations opts type. split.
  - intros Hno d Hd. apply lookup_update in Hd as ->. eexists; split; [done|].
    unfold update_check; fold opts; rewrite Hno. split_and!.
    + done.
    + by intros [u|].
    + intros u doc. fold type. destruct (Users_owns B u doc); intuition congruence.
  - intros Hno d Hd. apply lookup_delete in Hd as ->. eexists; split; [done|].
    unfold delete_check; fold opts; rewrite Hno. split_and!.
    + done.
    + by intros [u|].
    + intros u doc. fold type. destruct (Users_owns B u doc); intuition congruence.
Qed.

(** C2: when the options supply newCheck, editCheck or removeCheck, the
    check of the create, update or delete descriptor returns that
    function's result on every user and document, and two factories that
    differ in their backend, hence in the ownership relation and the
    authorization oracle, decide alike. *)
Theorem override_check_decides B1 B2 T opts (reg1 reg2 : Registry) user document :
  let mutations1 := (getDefaultMutations B1 T (Some opts) reg1).1 in
  let mutations2 := (getDefaultMutations B2 T (Some opts) reg2).1 in
  (∀ f d1 d2, newCheck opts = Some f →
     mutations1 !! "create" = Some d1 → mutations2 !! "create" = Some d2 →
     ∃ chk1 chk2, check d1 = Some chk1 ∧ check d2 = Some chk2
       ∧ chk1 user document = f user document
       ∧ chk2 user document = chk1 user document)
  ∧ (∀ f d1 d2, editCheck opts = Some f →
     mutations1 !! "update" = Some d1 → mutations2 !! "update" = Some d2 →
     ∃ chk1 chk2, check d1 = Some chk1 ∧ check d2 = Some chk2
       ∧ chk1 user document = f user document
       ∧ chk2 user document = chk1 user document)
  ∧ (∀ f d1 d2, removeCheck opts = Some f →
     mutations1 !! "delete" = Some d1 → mutations2 !! "delete" = Some d2 →
     ∃ chk1 chk2, check d1 = Some chk1 ∧ check d2 = Some chk2
       ∧ chk1 user document = f user document
       ∧ chk2 user document = chk1 user document).
Proof.
  intros mutations1 mutations2. split_and!; intros f d1 d2 Hf Hd1 Hd2.
  - apply lookup_create in Hd1 as ->. apply lookup_create in Hd2 as ->.
    do 2 eexists. split_and!; try done; simpl; unfold create_check; by rewrite Hf.
  - apply lookup_update in Hd1 as ->. apply lookup_update in Hd2 as ->.
    do 2 eexists. split_and!; try done; simpl; unfold update_check; by rewrite Hf.
  - apply lookup_delete in Hd1 as ->. apply lookup_delete in Hd2 as ->.
    do 2 eexists. split_and!; try done; simpl; unfold delete_check; by rewrite Hf.
Qed.

(** *** The handlers, step by step *)

Lemma logged_logged w (evs evs' : list Event) :
  logged (logged w evs) evs' = logged w (evs ++ evs').
Proof. unfold logged; simpl. by rewrite <- app_assoc. Qed.

Lemma logged_nil w : logged w [] = w.
Proof. destruct w. unfold logged; simpl. by rewrite app_nil_r. Qed.

Lemma run_defined {A C} (o : option A) (k : A → M C) w :
  bind (defined o) k w
  = match o with Some a => k a w | None => (Throw TypeError, w) end.
Proof. by destruct o. Qed.

Lemma run_log {C} e (k : () → M C) w : bind (log e) k w = k () (logged w [e]).
Proof. done. Qed.

Lemma run_performCheck {C} (operation : CheckFn) user document context'
    (k : () → M C) w :
  bind (performCheck operation user document context') k w
  = if operation user document
    then k () (logged w [EvCheck user document])
    else (Throw AuthorizationDenied, logged w [EvCheck user document]).
Proof.
  unfold performCheck, bind, log, ret, throw.
  by destruct (operation user document).
Qed.

Lemma run_get {C} B collection q (k : option Document → M C) w :
  bind (get B collection q) k w
  = match Connectors_get B collection q (store w) with
    | Return document => k document (logged w [EvGet collection q])
    | Throw e => (Throw e, logged w [EvGet collection q])
    end.
Proof.
  unfold get, bind, log; simpl.
  by destruct (Connectors_get B collection q (store w)).
Qed.

Lemma run_persist {A} (call : A → Event) helper (a : A) w :
  persist call helper a w
  = ((helper a (store w)).1,
     {| store := (helper a (store w)).2; trace := trace w ++ [call a] |}).
Proof. unfold persist, bind, log; simpl. by destruct (helper a (store w)). Qed.

(** The create handler: destructure, check, persist. *)
Lemma create_mutation_run B T opts (root : Root) args context w :
  create_mutation B T opts root args context w
  = match args_input args with
    | None => (Throw TypeError, w)
    | Some input =>
        let user := currentUser context in
        let data := input_data input in
        let a := {| cm_collection := collections context !! T; cm_data := data;
                    cm_currentUser := user; cm_validate := true; cm_context := context |} in
        if create_check B T opts user data then
          ((createMutator B a (store w)).1,
           {| store := (createMutator B a (store w)).2;
              trace := trace w ++ [EvCheck user data; EvCreateMutator a] |})
        else (Throw AuthorizationDenied, logged w [EvCheck user data])
    end.
Proof.
  unfold create_mutation. rewrite run_defined.
  destruct (args_input args) as [input|]; [|done].
  rewrite run_performCheck. cbv zeta.
  destruct (create_check B T opts _ _); [|done].
  rewrite run_persist. unfold logged; simpl. by rewrite <- app_assoc.
Qed.

(** The update handler: destructure, fetch, check, persist. *)
Lemma update_mutation_run B T opts (root : Root) args context w :
  update_mutation B T opts root args context w
  = match args_input args ≫= λ input, pair input <$> input_selector input with
    | None => (Throw TypeError, w)
    | Some (input, selector) =>
        let user := currentUser context in
        let collection := collections context !! T in
        let q := ById (selector !! "documentId") in
        match Connectors_get B collection q (store w) with
        | Throw e => (Throw e, logged w [EvGet collection q])
        | Return document =>
            let a := {| um_collection := collection; um_documentId := selector !! "documentId";
                        um_data := input_data input; um_currentUser := user;
                        um_validate := true; um_context := context |} in
            if update_check B T opts user document then
              ((updateMutator B a (store w)).1,
               {| store := (updateMutator B a (store w)).2;
                  trace := trace w ++ [EvGet collection q; EvCheck user document;
                                       EvUpdateMutator a] |})
            else (Throw AuthorizationDenied,
                  logged w [EvGet collection q; EvCheck user document])
        end
    end.
Proof.
  unfold update_mutation. rewrite run_defined.
  destruct (args_input args) as [input|]; [|done]. simpl. rewrite run_defined.
  destruct (input_selector input) as [selector|]; [|done]. simpl. rewrite run_get.
  destruct (Connectors_get B _ _ (store w)) as [document|e]; [|done].
  rewrite run_performCheck.
  destruct (update_check B T opts _ _); [|by rewrite logged_logged].
  rewrite run_persist. unfold logged; simpl. by rewrite <- !app_assoc.
Qed.

(** The delete handler: destructure, fetch, check, persist. *)
Lemma delete_mutation_run B T opts (root : Root) args context w :
  delete_mutation B T opts root args context w
  = match args_input args ≫= input_selector with
    | None => (Throw TypeError, w)
    | Some selector =>
        let user := currentUser context in
        let collection := collections context !! T in
        let q := ById (selector !! "documentId") in
        match Connectors_get B collection q (store w) with
        | Throw e => (Throw e, logged w [EvGet collection q])
        | Return document =>
            let a := {| dm_collection := collection; dm_documentId := selector !! "documentId";
                        dm_currentUser := user; dm_validate := true; dm_context := context |} in
            if delete_check B T opts user document then
              ((deleteMutator B a (store w)).1,
               {| store := (deleteMutator B a (store w)).2;
                  trace := trace w ++ [EvGet collection q; EvCheck user document;
                                       EvDeleteMutator a] |})
            else (Throw AuthorizationDenied,
                  logged w [EvGet collection q; EvCheck user document])
        end
    end.
Proof.
  unfold delete_mutation. rewrite run_defined.
  destruct (args_input args) as [input|]; [|done]. simpl. rewrite run_defined.
  destruct (input_selector input) as [selector|]; [|done]. simpl. rewrite run_get.
  destruct (Connectors_get B _ _ (store w)) as [document|e]; [|done].
  rewrite run_performCheck.
  destruct (delete_check B T opts _ _); [|by rewrite logged_logged].
  rewrite run_persist. unfold logged; simpl. by rewrite <- !app_assoc.
Qed.

(** Reading the handler to call off the collection, then calling it. *)
Lemma dispatch_run B collection (slot : string) (root : Root) args context w :
  dispatch B collection slot root args context w
  = match registeredMutation B collection slot with
    | Some d => mutation d root args context (logged w [EvDispatch slot args])
    | None => (Throw TypeError, w)
    end.
Proof.
  unfold dispatch, registeredMutation. rewrite run_defined.
  destruct collection as [c|]; [|done]. rewrite run_defined.
  destruct (collection_mutations B c) as [mutations|]; [|done]. rewrite run_defined.
  by destruct (mutations !! slot).
Qed.

(** C3: when the descriptor's check is false on the current user and the
    checked document, the create, update and delete handlers end in an
    authorization error with the store as it was; the create handler has
    then made the check and no other call, the update and delete handlers
    the fetch and the check, so no persistence helper was called. *)
Theorem denied_before_persistence B T options (reg : Registry)
    (root : Root) args context w :
  let mutations := (getDefaultMutations B T options reg).1 in
  let user := currentUser context in
  let collection := collections context !! T in
  (∀ d chk input,
      mutations !! "create" = Some d → check d = Some chk →
      args_input args = Some input →
      chk user (input_data input) = false →
      mutation d root args context w
      = (Throw AuthorizationDenied, logged w [EvCheck user (input_data input)]))
  ∧ (∀ d chk input selector document,
      mutations !! "update" = Some d → check d = Some chk →
      args_input args = Some input → input_selector input = Some selector →
      Connectors_get B collection (ById (selector !! "documentId")) (store w)
        = Return document →
      chk user document = false →
      mutation d root args context w
      = (Throw AuthorizationDenied,
         logged w [EvGet collection (ById (selector !! "documentId"));
                   EvCheck user document]))
  ∧ (∀ d chk input selector document,
      mutations !! "delete" = Some d → check d = Some chk →
      args_input args = Some input → input_selector input = Some selector →
      Connectors_get B collection (ById (selector !! "documentId")) (store w)
        = Return document →
      chk user document = false →
      mutation d root args context w
      = (Throw AuthorizationDenied,
         logged w [EvGet collection (ById (selector !! "documentId"));
                   EvCheck user document])).
Proof.
  intros mutations user collection. split_and!.
  - intros d chk input Hd Hchk Hin Hno. apply lookup_create in Hd as ->.
    injection Hchk as <-. cbn [mutation createDescriptor].
    rewrite create_mutation_run, Hin. cbv zeta. fold user. by rewrite Hno.
  - intros d chk input selector document Hd Hchk Hin Hsel Hget Hno.
    apply lookup_update in Hd as ->. injection Hchk as <-.
    cbn [mutation updateDescriptor].
    rewrite update_mutation_run, Hin; simpl. rewrite Hsel; simpl.
    fold user collection. by rewrite Hget, Hno.
  - intros d chk input selector document Hd Hchk Hin Hsel Hget Hno.
    apply lookup_delete in Hd as ->. injection Hchk as <-.
    cbn [mutation deleteDescriptor].
    rewrite delete_mutation_run, Hin; simpl. rewrite Hsel; simpl.
    fold user collection. by rewrite Hget, Hno.
Qed.

(** C5: a run of the update or delete handler makes no call, or fetches
    by the selector's documentId and stops, or fetches, then checks the
    fetched document, then at most persists; with no override and a fetch
    that finds no document the check is false and the handler ends in an
    authorization error after the fetch and the check, the store
    unchanged. *)
Theorem fetch_precedes_check B T options (reg : Registry)
    (root : Root) args context w :
  let mutations := (getDefaultMutations B T options reg).1 in
  let opts := default defaultOptions options in
  let user := currentUser context in
  let collection := collections context !! T in
  (∀ (slot : string) d,
      slot = "update" ∨ slot = "delete" → mutations !! slot = Some d →
      ∃ evs, trace (mutation d root args context w).2 = (trace w ++ evs)%list
        ∧ (evs = []
           ∨ ∃ input selector,
               args_input args = Some input ∧ input_selector input = Some selector
               ∧ let q := ById (selector !! "documentId") in
                 evs = [EvGet collection q]
                 ∨ ∃ document tail,
                     Connectors_get B collection q (store w) = Return document
                     ∧ evs = EvGet collection q :: EvCheck user document :: tail
                     ∧ Forall (λ e, persistence_call e = true) tail))
  ∧ (∀ d input selector,
      mutations !! "update" = Some d → editCheck opts = None →
      args_input args = Some input → input_selector input = Some selector →
      Connectors_get B collection (ById (selector !! "documentId")) (store w)
        = Return None →
      (∃ chk, check d = Some chk ∧ chk user None = false)
      ∧ mutation d root args context w
        = (Throw AuthorizationDenied,
           logged w [EvGet collection (ById (selector !! "documentId"));
                     EvCheck user None]))
  ∧ (∀ d input selector,
      mutations !! "delete" = Some d → removeCheck opts = None →
      args_input args = Some input → input_selector input = Some selector →
      Connectors_get B collection (ById (selector !! "documentId")) (store w)
        = Return None →
      (∃ chk, check d = Some chk ∧ chk user None = false)
      ∧ mutation d root args context w
        = (Throw AuthorizationDenied,
           logged w [EvGet collection (ById (selector !! "documentId"));
                     EvCheck user None])).
Proof.
  intros mutations opts user collection. split_and!.
  - intros slot d [-> | ->] Hd;
      [apply lookup_update in Hd as ->; cbn [mutation updateDescriptor];
       rewrite update_mutation_run
      |apply lookup_delete in Hd as ->; cbn [mutation deleteDescriptor];
       rewrite delete_mutation_run].
    all: destruct (args_input args) as [input|] eqn:Hin; simpl;
      [|by exists []; rewrite app_nil_r; auto].
    all: destruct (input_selector input) as [selector|] eqn:Hsel; simpl;
      [|by exists []; rewrite app_nil_r; auto].
    all: fold user collection.
    all: destruct (Connectors_get B _ _ (store w)) as [document|e] eqn:Hget; simpl;
      [|eexists; split; [done|]; right; exists input, selector; by auto].
    all: match goal with |- context [if ?c then _ else _] => destruct c end; simpl.
    all: eexists; split; [done|]; right; exists input, selector; split_and!; try done;
      right; eexists _, _; split_and!; try done; by repeat constructor.
  - intros d input selector Hd Hno Hin Hsel Hget. apply lookup_update in Hd as ->.
    assert (Hchk : update_check B T opts user None = false).
    { unfold update_check. rewrite Hno. by destruct user. }
    split; [by eexists|]. cbn [mutation updateDescriptor].
    rewrite update_mutation_run, Hin; simpl. rewrite Hsel; simpl.
    fold user collection opts. by rewrite Hget, Hchk.
  - intros d input selector Hd Hno Hin Hsel Hget. apply lookup_delete in Hd as ->.
    assert (Hchk : delete_check B T opts user None = false).
    { unfold delete_check. rewrite Hno. by destruct user. }
    split; [by eexists|]. cbn [mutation deleteDescriptor].
    rewrite delete_mutation_run, Hin; simpl. rewrite Hsel; simpl.
    fold user collection opts. by rewrite Hget, Hchk.
Qed.

(** C4, amended: upsert makes no check of its own.  After the lookup by
    selector it calls the update handler registered on the collection
    when a document was found, and the create handler registered on the
    collection when none was, and its run is the run of that handler;
    when the collection has no such handler the read of it fails with a
    type error and no handler is called. *)
Theorem upsert_dispatches_to_registered_handler B T (root : Root) args context w input :
  args_input args = Some input →
  let collection := collections context !! T in
  let selector := input_selector input in
  let data := input_data input in
  let q := BySelector selector in
  let toUpdate := {| args_input := None; args_selector := selector; args_data := data |} in
  let toCreate := {| args_input := None; args_selector := None; args_data := data |} in
  let registered := registeredMutation B collection in
  (∀ document d,
      Connectors_get B collection q (store w) = Return (Some document) →
      registered "update" = Some d →
      upsert_mutation B T root args context w
      = mutation d root toUpdate context
          (logged w [EvGet collection q; EvDispatch "update" toUpdate]))
  ∧ (∀ d,
      Connectors_get B collection q (store w) = Return None →
      registered "create" = Some d →
      upsert_mutation B T root args context w
      = mutation d root toCreate context
          (logged w [EvGet collection q; EvDispatch "create" toCreate]))
  ∧ (∀ document,
      Connectors_get B collection q (store w) = Return (Some document) →
      registered "update" = None →
      upsert_mutation B T root args context w
      = (Throw TypeError, logged w [EvGet collection q]))
  ∧ (Connectors_get B collection q (store w) = Return None →
      registered "create" = None →
      upsert_mutation B T root args context w
      = (Throw TypeError, logged w [EvGet collection q])).
Proof.
  intros Hin collection selector data q toUpdate toCreate registered.
  assert (Hrun : upsert_mutation B T root args context w
                 = match Connectors_get B collection q (store w) with
                   | Return (Some _) =>
                       dispatch B collection "update" root toUpdate context
                         (logged w [EvGet collection q])
                   | Return None =>
                       dispatch B collection "create" root toCreate context
                         (logged w [EvGet collection q])
                   | Throw e => (Throw e, logged w [EvGet collection q])
                   end).
  { unfold upsert_mutation. rewrite run_defined, Hin. cbv zeta. rewrite run_get.
    fold collection selector q.
    by destruct (Connectors_get B collection q (store w)) as [[document|]|e]. }
  rewrite Hrun. clear Hrun. subst registered.
  split_and!; [intros document d -> Hd|intros d -> Hd|intros document -> Hd|intros -> Hd];
    rewrite dispatch_run, Hd; by rewrite ?logged_logged.
Qed.

(** C10: in a supplied options object a flag that is absent disables
    its mutation, the default object being used only when the whole
    argument is omitted; [{ create: true }] yields the create descriptor
    alone. *)
Theorem absent_flag_disables_mutation B T (reg : Registry) opts (slot : string) :
  flag slot opts = None →
  (getDefaultMutations B T (Some opts) reg).1 !! slot = None
  ∧ dom (getDefaultMutations B T (Some (only "create")) reg).1 = ({["create"]} : gset string).
Proof.
  intros Hflag. split.
  - apply eq_None_not_Some. intros Hs.
    apply mutation_present_iff in Hs. simpl in Hs. congruence.
  - apply set_eq. intros k. rewrite elem_of_dom, elem_of_singleton.
    rewrite mutation_present_iff.
    simpl. unfold flag. repeat case_decide; subst; simpl; split; congruence.
Qed.
End MutationFacts.

(** ** The callback registry *)

Section CallbackFacts.
Lemma registeredCallbacks_names T :
  name <$> registeredCallbacks T
  = (λ ap : string * string, callbackName T ap.1 ap.2) <$> lifecycle.
Proof. reflexivity. Qed.

Lemma registeredCallbacks_suffixes T :
  name <$> registeredCallbacks T
  = String.app (Js.toLowerCase T) <$>
      [".create.validate"; ".create.before"; ".create.after"; ".create.async";
       ".update.validate"; ".update.before"; ".update.after"; ".update.async";
       ".delete.validate"; ".delete.before"; ".delete.async"].
Proof. reflexivity. Qed.

(** C6, amended: for every type name, registerCollectionCallbacks
    registers eleven definitions with pairwise distinct names: one per
    action and phase of the lifecycle grid except delete.after, named
    type.action.phase on the lower-cased type name, in source order; the
    async phase runs async and the others sync; each definition carries
    the argument list documented for it, argument by argument with its
    description (so every one lists the current user, and the async ones
    alone the collection); any registry receives these definitions
    through registerCallback, in this order. *)
Theorem registerCollectionCallbacks_definitions T :
  let defs := registeredCallbacks T in
  length defs = 11
  ∧ NoDup (name <$> defs)
  ∧ name <$> defs = (λ ap : string * string, callbackName T ap.1 ap.2) <$> lifecycle
  ∧ runs <$> defs = (λ ap : string * string, runMode ap.2) <$> lifecycle
  ∧ Forall (λ d, "currentUser" ∈ (arguments d).*1) defs
  ∧ Forall (λ d, runs d = "async" ↔ "collection" ∈ (arguments d).*1) defs
  ∧ (λ d, (name d, arguments d)) <$> defs
    = [ (callbackName T "create" "validate",
         [("document", "The document being inserted");
          ("currentUser", "The current user");
          ("validationErrors", "An object that can be used to accumulate validation errors")]);
        (callbackName T "create" "before",
         [("document", "The document being inserted");
          ("currentUser", "The current user")]);
        (callbackName T "create" "after",
         [("document", "The document being inserted");
          ("currentUser", "The current user")]);
        (callbackName T "create" "async",
         [("document", "The document being inserted");
          ("currentUser", "The current user");
          ("collection", "The collection the document belongs to")]);
        (callbackName T "update" "validate",
         [("modifier", "The MongoDB modifier");
          ("document", "The document being edited");
          ("currentUser", "The current user");
          ("validationErrors", "An object that can be used to accumulate validation errors")]);
        (callbackName T "update" "before",
         [("modifier", "The MongoDB modifier");
          ("document", "The document being edited");
          ("currentUser", "The current user")]);
        (callbackName T "update" "after",
         [("modifier", "The MongoDB modifier");
          ("document", "The document being edited");
          ("currentUser", "The current user")]);
        (callbackName T "update" "async",
         [("newDocument", "The document after the edit");
          ("document", "The document before the edit");
          ("currentUser", "The current user");
          ("collection", "The collection the document belongs to")]);
        (callbackName T "delete" "validate",
         [("document", "The document being removed");
          ("currentUser", "The current user");
          ("validationErrors", "An object that can be used to accumulate validation errors")]);
        (callbackName T "delete" "before",
         [("document", "The document being removed");
          ("currentUser", "The current user")]);
        (callbackName T "delete" "async",
         [("document", "The document being removed");
          ("currentUser", "The current user");
          ("collection", "The collection the document belongs to")]) ]
  ∧ ∀ (Registry : Type) (reg : CallbackDefinition → Registry → Registry) (r : Registry),
      registerCollectionCallbacks reg T r = foldl (λ r d, reg d r) r defs.
Proof.
  intros defs. split_and!.
  - reflexivity.
  - subst defs. rewrite registeredCallbacks_suffixes. apply NoDup_fmap_2; [apply _|].
    apply (bool_decide_unpack _). by vm_compute.
  - apply registeredCallbacks_names.
  - reflexivity.
  - apply (bool_decide_unpack _). by vm_compute.
  - apply (bool_decide_unpack _). by vm_compute.
  - reflexivity.
  - reflexivity.
Qed.

(** C6, counterexample: for Posts the registry receives eleven
    definitions, not twelve, and none is named posts.delete.after. *)
Lemma registeredCallbacks_Posts_eleven :
  length (registeredCallbacks "Posts") ≠ 12
  ∧ "posts.delete.after" ∉ (name <$> registeredCallbacks "Posts").
Proof.
  split; [by vm_compute|]. apply (bool_decide_unpack _). by vm_compute.
Qed.
End CallbackFacts.

(** ** The theorems at work on the posts deployment *)

(** C1 on the posts deployment: the default update check on alice and her
    post, and the default delete check on bob. *)
Lemma default_update_delete_check_witness :
  (∃ chk, check (updateDescriptor (Posts.backend (λ _, None)) "Posts" defaultOptions) = Some chk
     ∧ chk None (Some Posts.hello) = false
     ∧ chk (Some Posts.alice) None = false
     ∧ (chk (Some Posts.alice) (Some Posts.hello) = true ↔
          (Users_owns (Posts.backend (λ _, None)) Posts.alice Posts.hello = true
           ∧ Users_canDo (Posts.backend (λ _, None)) (Some Posts.alice) "posts.edit.own" = true)
          ∨ (Users_owns (Posts.backend (λ _, None)) Posts.alice Posts.hello = false
             ∧ Users_canDo (Posts.backend (λ _, None)) (Some Posts.alice) "posts.edit.all" = true)))
  ∧ (∃ chk, check (deleteDescriptor (Posts.backend (λ _, None)) "Posts" defaultOptions) = Some chk
     ∧ chk (Some Posts.bob) (Some Posts.hello) = false).
Proof.
  pose proof (default_update_delete_check (Posts.backend (λ _, None)) "Posts" None []) as [Hu Hd].
  split.
  - destruct (Hu eq_refl (updateDescriptor (Posts.backend (λ _, None)) "Posts" defaultOptions) eq_refl)
      as (chk & Hchk & Hnu & Hnd & Hiff).
    exists chk. split_and!; [exact Hchk | apply Hnu | apply Hnd | apply Hiff].
  - destruct (Hd eq_refl (deleteDescriptor (Posts.backend (λ _, None)) "Posts" defaultOptions) eq_refl)
      as (chk & Hchk & _ & _ & Hiff).
    exists chk. split; [exact Hchk|].
    destruct (chk (Some Posts.bob) (Some Posts.hello)) eqn:E; [|reflexivity].
    apply Hiff in E. vm_compute in E. destruct E as [[E _]|[_ E]]; discriminate E.
Defined.

(** C2 on the posts deployment: the signed-in override decides for bob under
    the ordinary and under the locked oracle. *)
Lemma override_check_decides_witness :
  ∃ chk1 chk2,
    check (updateDescriptor (Posts.backend (λ _, None)) "Posts" (Posts.overridden Posts.signedIn))
      = Some chk1
    ∧ check (updateDescriptor Posts.lockedBackend "Posts" (Posts.overridden Posts.signedIn))
      = Some chk2
    ∧ chk1 (Some Posts.bob) (Some Posts.hello) = Posts.signedIn (Some Posts.bob) (Some Posts.hello)
    ∧ chk2 (Some Posts.bob) (Some Posts.hello) = chk1 (Some Posts.bob) (Some Posts.hello).
Proof.
  exact (proj1 (proj2 (override_check_decides (Posts.backend (λ _, None)) Posts.lockedBackend
           "Posts" (Posts.overridden Posts.signedIn) [] [] (Some Posts.bob) (Some Posts.hello)))
         Posts.signedIn _ _ eq_refl eq_refl eq_refl).
Defined.

(** C3 on the posts deployment: bob, who holds no action, is refused by each
    handler and the store keeps its one post. *)
Lemma denied_before_persistence_witness :
  mutation (createDescriptor (Posts.backend (λ _, None)) "Posts" defaultOptions) ()
      (Posts.input None (Some Posts.draft)) (Posts.context (Some Posts.bob)) Posts.world
    = (Throw AuthorizationDenied,
       {| store := store Posts.world;
          trace := [EvCheck (Some Posts.bob) (Some Posts.draft)] |})
  ∧ mutation (updateDescriptor (Posts.backend (λ _, None)) "Posts" defaultOptions) ()
      (Posts.input (Some (Posts.byId "p1")) (Some Posts.draft))
      (Posts.context (Some Posts.bob)) Posts.world
    = (Throw AuthorizationDenied,
       {| store := store Posts.world;
          trace := [EvGet (Some "posts") (ById (Some "p1"));
                    EvCheck (Some Posts.bob) (Some Posts.hello)] |})
  ∧ mutation (deleteDescriptor (Posts.backend (λ _, None)) "Posts" defaultOptions) ()
      (Posts.input (Some (Posts.byId "p1")) None)
      (Posts.context (Some Posts.bob)) Posts.world
    = (Throw AuthorizationDenied,
       {| store := store Posts.world;
          trace := [EvGet (Some "posts") (ById (Some "p1"));
                    EvCheck (Some Posts.bob) (Some Posts.hello)] |}).
Proof.
  split_and!.
  - exact (proj1 (denied_before_persistence (Posts.backend (λ _, None)) "Posts" None [] ()
             (Posts.input None (Some Posts.draft)) (Posts.context (Some Posts.bob)) Posts.world)
           _ _ _ eq_refl eq_refl eq_refl eq_refl).
  - exact (proj1 (proj2 (denied_before_persistence (Posts.backend (λ _, None)) "Posts" None [] ()
             (Posts.input (Some (Posts.byId "p1")) (Some Posts.draft))
             (Posts.context (Some Posts.bob)) Posts.world))
           _ _ _ _ _ eq_refl eq_refl eq_refl eq_refl eq_refl eq_refl).
  - exact (proj2 (proj2 (denied_before_persistence (Posts.backend (λ _, None)) "Posts" None [] ()
             (Posts.input (Some (Posts.byId "p1")) None)
             (Posts.context (Some Posts.bob)) Posts.world))
           _ _ _ _ _ eq_refl eq_refl eq_refl eq_refl eq_refl eq_refl).
Defined.

(** C4 on the posts deployment with all four mutations registered: upsert of
    an existing post runs the registered update handler. *)
Lemma upsert_dispatches_to_registered_handler_witness :
  upsert_mutation (Posts.deployed None) "Posts" ()
      (Posts.input (Some (Posts.byId "p1")) (Some Posts.draft))
      (Posts.context (Some Posts.alice)) Posts.world
  = mutation (updateDescriptor (Posts.backend (λ _, None)) "Posts" defaultOptions) ()
      {| args_input := None; args_selector := Some (Posts.byId "p1");
         args_data := Some Posts.draft |}
      (Posts.context (Some Posts.alice))
      {| store := store Posts.world;
         trace := [EvGet (Some "posts") (BySelector (Some (Posts.byId "p1")));
                   EvDispatch "update"
                     {| args_input := None; args_selector := Some (Posts.byId "p1");
                        args_data := Some Posts.draft |}] |}.
Proof.
  exact (proj1 (upsert_dispatches_to_registered_handler (Posts.deployed None) "Posts" ()
           (Posts.input (Some (Posts.byId "p1")) (Some Posts.draft))
           (Posts.context (Some Posts.alice)) Posts.world _ eq_refl)
         Posts.hello _ eq_refl eq_refl).
Defined.

(** C4, counterexample: the collection registered the mutations generated
    under [{ upsert: true }]; the lookup finds the post, yet upsert ends in
    a type error having called the connector only, neither handler. *)
Lemma upsert_without_update_invokes_nothing :
  let B := Posts.deployed (Some (only "upsert")) in
  let q := BySelector (Some (Posts.byId "p1")) in
  Connectors_get B (Some "posts") q (store Posts.world) = Return (Some Posts.hello)
  ∧ upsert_mutation B "Posts" ()
      (Posts.input (Some (Posts.byId "p1")) (Some Posts.draft))
      (Posts.context (Some Posts.alice)) Posts.world
    = (Throw TypeError, {| store := store Posts.world; trace := [EvGet (Some "posts") q] |}).
Proof. split; reflexivity. Qed.

(** What the dispatched handler then does: the generated update handler
    reads the [input] property of its argument, which the object passed by
    upsert lacks, and stops with a type error before its fetch and check. *)
Example upsert_generated_update_rejects_arguments :
  upsert_mutation (Posts.deployed None) "Posts" ()
      (Posts.input (Some (Posts.byId "p1")) (Some Posts.draft))
      (Posts.context (Some Posts.alice)) Posts.world
  = (Throw TypeError,
     {| store := store Posts.world;
        trace := [EvGet (Some "posts") (BySelector (Some (Posts.byId "p1")));
                  EvDispatch "update"
                    {| args_input := None; args_selector := Some (Posts.byId "p1");
                       args_data := Some Posts.draft |}] |}).
Proof. reflexivity. Qed.

(** A permitted update: fetch, check, persist, and the store holds the new data. *)
Example alice_updates_her_post :
  update_mutation (Posts.backend (λ _, None)) "Posts" defaultOptions ()
      (Posts.input (Some (Posts.byId "p1")) (Some Posts.draft))
      (Posts.context (Some Posts.alice)) Posts.world
  = (Return Posts.draft,
     {| store := {["p1" := Posts.draft]};
        trace := [EvGet (Some "posts") (ById (Some "p1"));
                  EvCheck (Some Posts.alice) (Some Posts.hello);
                  EvUpdateMutator
                    {| um_collection := Some "posts"; um_documentId := Some "p1";
                       um_data := Some Posts.draft; um_currentUser := Some Posts.alice;
                       um_validate := true;
                       um_context := Posts.context (Some Posts.alice) |}] |}).
Proof. reflexivity. Qed.

(** C5 on the posts deployment: alice updates a post that does not exist. *)
Lemma fetch_precedes_check_witness :
  (∃ chk, check (updateDescriptor (Posts.backend (λ _, None)) "Posts" defaultOptions) = Some chk
          ∧ chk (Some Posts.alice) None = false)
  ∧ mutation (updateDescriptor (Posts.backend (λ _, None)) "Posts" defaultOptions) ()
      (Posts.input (Some (Posts.byId "p9")) (Some Posts.draft))
      (Posts.context (Some Posts.alice)) Posts.world
    = (Throw AuthorizationDenied,
       {| store := store Posts.world;
          trace := [EvGet (Some "posts") (ById (Some "p9"));
                    EvCheck (Some Posts.alice) None] |}).
Proof.
  exact (proj1 (proj2 (fetch_precedes_check (Posts.backend (λ _, None)) "Posts" None [] ()
           (Posts.input (Some (Posts.byId "p9")) (Some Posts.draft))
           (Posts.context (Some Posts.alice)) Posts.world))
         _ _ _ eq_refl eq_refl eq_refl eq_refl eq_refl).
Defined.

(** C10 on the posts deployment: [{ create: true }] yields no update descriptor. *)
Lemma absent_flag_disables_mutation_witness :
  Posts.generated (Some (only "create")) !! "update" = None
  ∧ dom (Posts.generated (Some (only "create"))) = ({["create"]} : gset string).
Proof.
  exact (absent_flag_disables_mutation (Posts.backend (λ _, None)) "Posts" []
           (only "create") "update" eq_refl).
Defined.

(** C8 on the sample group: other options with labels of the same lengths
    get the same column class. *)
Lemma columnClass_from_label_lengths_witness :
  MuiCheckboxGroup.columnClass MuiCheckboxGroup.relabelled
  = MuiCheckboxGroup.columnClass
      (MuiCheckboxGroup.options (MuiCheckboxGroup.inputProperties MuiCheckboxGroup.sample)).
Proof.
  exact (proj2 (proj2 (columnClass_from_label_lengths MuiCheckboxGroup.sample))
           MuiCheckboxGroup.relabelled eq_refl).
Defined.

(** C9 on the sample group: the control of the option whose value is the
    empty string is checked. *)
Lemma renderElement_always_checked_witness :
  ∃ c, MuiCheckboxGroup.controls (MuiCheckboxGroup.renderElement MuiCheckboxGroup.sample) !! 1 = Some c
       ∧ MuiCheckboxGroup.control_value c = ""
       ∧ MuiCheckboxGroup.checked c = true.
Proof.
  exact (proj1 (renderElement_always_checked MuiCheckboxGroup.sample) 1 _ eq_refl).
Defined.

(** * Further properties of the handlers *)

Section MutationCoverage.
Context {User Document Collection Store Root Registry : Type}.
Implicit Types (B : @Backend User Document Collection Store Root Registry).
Implicit Types (T : string) (opts : @Options User Document).
Implicit Types (options : option (@Options User Document)).
Implicit Types (w : @World User Document Collection Store).
Implicit Types (d : @Descriptor User Document Collection Store Root).

(** X1: with no newCheck configured, the check of the create descriptor
    is the answer of Users.canDo for the action [type.new] on the
    lower-cased type name: the document is not consulted and an absent
    user is passed on to canDo, there being no guard as in update and
    delete. *)
Theorem create_default_check B T options (reg : Registry) d :
  (getDefaultMutations B T options reg).1 !! "create" = Some d →
  newCheck (default defaultOptions options) = None →
  ∃ chk, check d = Some chk
    ∧ ∀ user document,
        chk user document = Users_canDo B user (Js.toLowerCase T +:+ ".new").
Proof.
  intros Hd Hno. apply lookup_create in Hd as ->. eexists; split; [done|].
  intros user document. unfold create_check. by rewrite Hno.
Qed.

(** X2: when the check passes on a present checked object (performCheck
    raising only on a false check), each handler calls its persistence
    helper once, with the collection found under the type name in the
    context, the selector's documentId, the submitted data, the current
    user, validate set to true and the context; the handler's outcome and
    the store are the helper's, an error of the helper included. *)
Theorem permitted_mutation_delegates B T options (reg : Registry)
    (root : Root) args context w :
  let mutations := (getDefaultMutations B T options reg).1 in
  let user := currentUser context in
  let collection := collections context !! T in
  (∀ d chk input data,
      mutations !! "create" = Some d → check d = Some chk →
      args_input args = Some input → input_data input = Some data →
      chk user (Some data) = true →
      let a := {| cm_collection := collection; cm_data := Some data;
                  cm_currentUser := user; cm_validate := true; cm_context := context |} in
      mutation d root args context w
      = ((createMutator B a (store w)).1,
         {| store := (createMutator B a (store w)).2;
            trace := trace w ++ [EvCheck user (Some data); EvCreateMutator a] |}))
  ∧ (∀ d chk input selector document,
      mutations !! "update" = Some d → check d = Some chk →
      args_input args = Some input → input_selector input = Some selector →
      let q := ById (selector !! "documentId") in
      Connectors_get B collection q (store w) = Return (Some document) →
      chk user (Some document) = true →
      let a := {| um_collection := collection; um_documentId := selector !! "documentId";
                  um_data := input_data input; um_currentUser := user;
                  um_validate := true; um_context := context |} in
      mutation d root args context w
      = ((updateMutator B a (store w)).1,
         {| store := (updateMutator B a (store w)).2;
            trace := trace w ++ [EvGet collection q; EvCheck user (Some document);
                                 EvUpdateMutator a] |}))
  ∧ (∀ d chk input selector document,
      mutations !! "delete" = Some d → check d = Some chk →
      args_input args = Some input → input_selector input = Some selector →
      let q := ById (selector !! "documentId") in
      Connectors_get B collection q (store w) = Return (Some document) →
      chk user (Some document) = true →
      let a := {| dm_collection := collection; dm_documentId := selector !! "documentId";
                  dm_currentUser := user; dm_validate := true; dm_context := context |} in
      mutation d root args context w
      = ((deleteMutator B a (store w)).1,
         {| store := (deleteMutator B a (store w)).2;
            trace := trace w ++ [EvGet collection q; EvCheck user (Some document);
                                 EvDeleteMutator a] |})).
Proof.
  intros mutations user collection. split_and!.
  - intros d chk input data Hd Hchk Hin Hdata Hyes a. apply lookup_create in Hd as ->.
    injection Hchk as <-. cbn [mutation createDescriptor].
    rewrite create_mutation_run, Hin. cbv zeta. fold user collection.
    rewrite Hdata. by rewrite Hyes.
  - intros d chk input selector document Hd Hchk Hin Hsel q Hget Hyes a.
    apply lookup_update in Hd as ->. injection Hchk as <-.
    cbn [mutation updateDescriptor].
    rewrite update_mutation_run, Hin; simpl. rewrite Hsel; simpl.
    fold user collection q. by rewrite Hget, Hyes.
  - intros d chk input selector document Hd Hchk Hin Hsel q Hget Hyes a.
    apply lookup_delete in Hd as ->. injection Hchk as <-.
    cbn [mutation deleteDescriptor].
    rewrite delete_mutation_run, Hin; simpl. rewrite Hsel; simpl.
    fold user collection q. by rewrite Hget, Hyes.
Qed.

(** X4: an error thrown by Connectors.get is the handler's error: the
    update and delete handlers and upsert stop after the fetch, with no
    check, no dispatch, no persistence call and the store as it was. *)
Theorem connector_failure_propagates B T opts (root : Root) args context w input e :
  args_input args = Some input →
  let collection := collections context !! T in
  (∀ selector,
      input_selector input = Some selector →
      let q := ById (selector !! "documentId") in
      Connectors_get B collection q (store w) = Throw e →
      update_mutation B T opts root args context w = (Throw e, logged w [EvGet collection q])
      ∧ delete_mutation B T opts root args context w = (Throw e, logged w [EvGet collection q]))
  ∧ (let q := BySelector (input_selector input) in
     Connectors_get B collection q (store w) = Throw e →
     upsert_mutation B T root args context w = (Throw e, logged w [EvGet collection q])).
Proof.
  intros Hin collection. split.
  - intros selector Hsel q Hget.
    rewrite update_mutation_run, delete_mutation_run, Hin; simpl. rewrite Hsel; simpl.
    fold collection q. by rewrite Hget.
  - intros q Hget. unfold upsert_mutation. rewrite run_defined, Hin. cbv zeta.
    rewrite run_get. fold collection q. by rewrite Hget.
Qed.

(** X5: arguments without an [input] property make each of the four
    handlers fail with a type error before any call, and so does an input
    without selector for update and delete; the world is left as it
    was. *)
Theorem malformed_arguments_fail_first B T opts (root : Root) args context w :
  (args_input args = None →
     create_mutation B T opts root args context w = (Throw TypeError, w)
     ∧ update_mutation B T opts root args context w = (Throw TypeError, w)
     ∧ upsert_mutation B T root args context w = (Throw TypeError, w)
     ∧ delete_mutation B T opts root args context w = (Throw TypeError, w))
  ∧ (∀ input, args_input args = Some input → input_selector input = None →
     update_mutation B T opts root args context w = (Throw TypeError, w)
     ∧ delete_mutation B T opts root args context w = (Throw TypeError, w)).
Proof.
  split.
  - intros Hin. rewrite create_mutation_run, update_mutation_run, delete_mutation_run.
    unfold upsert_mutation. rewrite run_defined, Hin. done.
  - intros input Hin Hsel. rewrite update_mutation_run, delete_mutation_run, Hin; simpl.
    by rewrite Hsel.
Qed.

(** X3: in every run of a generated create, update or delete handler,
    whatever the arguments, either no persistence helper is called and the
    store is unchanged, or exactly one is called, as the last call, after a
    check on the current user that returned true. *)
Theorem persistence_requires_passed_check B T options (reg : Registry)
    (root : Root) args context w (slot : string) d chk :
  slot = "create" ∨ slot = "update" ∨ slot = "delete" →
  (getDefaultMutations B T options reg).1 !! slot = Some d →
  check d = Some chk →
  let w' := (mutation d root args context w).2 in
  let quiet := Forall (λ e : Event, persistence_call e = false) in
  ∃ evs, trace w' = (trace w ++ evs)%list
    ∧ ((quiet evs ∧ store w' = store w)
       ∨ ∃ pre e document,
           evs = (pre ++ [e])%list ∧ persistence_call e = true ∧ quiet pre
           ∧ EvCheck (currentUser context) document ∈ pre
           ∧ chk (currentUser context) document = true).
Proof.
  intros Hslot Hd Hchk w' quiet. subst w' quiet.
  destruct Hslot as [-> | [-> | ->]];
    [apply lookup_create in Hd as ->; injection Hchk as <-;
     cbn [mutation createDescriptor]; rewrite create_mutation_run
    |apply lookup_update in Hd as ->; injection Hchk as <-;
     cbn [mutation updateDescriptor]; rewrite update_mutation_run
    |apply lookup_delete in Hd as ->; injection Hchk as <-;
     cbn [mutation deleteDescriptor]; rewrite delete_mutation_run].
  all: destruct (args_input args) as [input|]; simpl;
    [|by exists []; rewrite app_nil_r; auto].
  2,3: destruct (input_selector input) as [selector|]; simpl;
    [|by exists []; rewrite app_nil_r; auto].
  2,3: destruct (Connectors_get B _ _ (store w)) as [document|e]; simpl;
    [|eexists; split; [done|]; left; split; [by repeat constructor|done]].
  all: match goal with |- context [if ?c then _ else _] => destruct c eqn:Hyes end; simpl.
  all: eexists; split; [done|].
  all: try (left; split; [by repeat constructor|done]).
  - right. eexists [_], _, _. split_and!; try done; [by repeat constructor|set_solver].
  - right. eexists [_; _], _, _. split_and!; try done; [by repeat constructor|set_solver].
  - right. eexists [_; _], _, _. split_and!; try done; [by repeat constructor|set_solver].
Qed.

(** X6: when the handler that upsert reaches is one generated by
    getDefaultMutations, the call fails with a type error right after the
    dispatch: the object upsert passes has [selector] and [data] but no
    [input] property, which the generated handlers destructure first.  No
    check and no persistence call is made and the store is unchanged. *)
Theorem upsert_fails_on_generated_handlers B T (root : Root) args context w input
    (B' : @Backend User Document Collection Store Root Registry) T' opts' :
  args_input args = Some input →
  let collection := collections context !! T in
  let selector := input_selector input in
  let data := input_data input in
  let q := BySelector selector in
  let toUpdate := {| args_input := None; args_selector := selector; args_data := data |} in
  let toCreate := {| args_input := None; args_selector := None; args_data := data |} in
  (∀ document,
      Connectors_get B collection q (store w) = Return (Some document) →
      registeredMutation B collection "update" = Some (updateDescriptor B' T' opts') →
      upsert_mutation B T root args context w
      = (Throw TypeError, logged w [EvGet collection q; EvDispatch "update" toUpdate]))
  ∧ (Connectors_get B collection q (store w) = Return None →
      registeredMutation B collection "create" = Some (createDescriptor B' T' opts') →
      upsert_mutation B T root args context w
      = (Throw TypeError, logged w [EvGet collection q; EvDispatch "create" toCreate])).
Proof.
  intros Hin collection selector data q toUpdate toCreate.
  unfold upsert_mutation. rewrite run_defined, Hin. cbv zeta. rewrite run_get.
  fold collection selector data q toUpdate toCreate.
  split; [intros document Hget Hd|intros Hget Hd]; rewrite Hget, dispatch_run, Hd;
    cbn [mutation updateDescriptor createDescriptor];
    rewrite ?update_mutation_run, ?create_mutation_run; simpl; by rewrite logged_logged.
Qed.

(** X7: on a collection whose registered mutations are those returned by
    getDefaultMutations, whatever the options, upsert never returns a
    document: every run ends in an error with the store unchanged, having
    made no check and no persistence call. *)
Theorem upsert_on_generated_mutations_always_throws B T (root : Root) args context w
    (B' : @Backend User Document Collection Store Root Registry) T' options' (reg' : Registry) :
  (∀ c, collections context !! T = Some c →
        collection_mutations B c = Some (getDefaultMutations B' T' options' reg').1) →
  ∃ e evs,
    upsert_mutation B T root args context w = (Throw e, logged w evs)
    ∧ Forall (λ ev, persistence_call ev = false ∧ ∀ u doc, ev ≠ EvCheck u doc) evs.
Proof.
  intros Hreg. unfold upsert_mutation. rewrite run_defined.
  destruct (args_input args) as [input|]; [|by exists TypeError, []; rewrite logged_nil].
  cbv zeta. rewrite run_get.
  set (collection := collections context !! T) in *.
  set (q := BySelector (input_selector input)).
  assert (Hslot : ∀ (slot : string) a w1,
            slot = "update" ∨ slot = "create" →
            dispatch B collection slot root
              {| args_input := None; args_selector := a; args_data := input_data input |}
              context w1
            = (Throw TypeError, w1)
            ∨ dispatch B collection slot root
                {| args_input := None; args_selector := a; args_data := input_data input |}
                context w1
              = (Throw TypeError,
                 logged w1 [EvDispatch slot
                   {| args_input := None; args_selector := a;
                      args_data := input_data input |}])).
  { intros slot a w1 Hslot. rewrite dispatch_run. unfold registeredMutation.
    destruct collection as [c|] eqn:Hc; [|by left].
    rewrite (Hreg c eq_refl), getDefaultMutations_fst, buildMutations_lookup.
    destruct Hslot as [-> | ->]; simpl;
      match goal with |- context [Js.truthy ?b] => destruct (Js.truthy b) end;
      try (by left); right; cbn [mutation updateDescriptor createDescriptor];
      by rewrite ?update_mutation_run, ?create_mutation_run. }
  destruct (Connectors_get B collection q (store w)) as [[document|]|e].
  - destruct (Hslot "update" (input_selector input) (logged w [EvGet collection q])
                (or_introl eq_refl))
      as [Hd | Hd]; rewrite Hd; [eexists _, [_]|eexists _, [_; _]];
      (split; [by rewrite ?logged_logged|]); by repeat constructor.
  - destruct (Hslot "create" None (logged w [EvGet collection q]) (or_intror eq_refl))
      as [Hd | Hd]; rewrite Hd; [eexists _, [_]|eexists _, [_; _]];
      (split; [by rewrite ?logged_logged|]); by repeat constructor.
  - eexists _, [_]. split; [done|]. by repeat constructor.
Qed.

(** X8: getDefaultMutations registers the collection callbacks whatever
    the options: the registry it leaves is the one after the eleven
    registerCallback calls, also when no flag is true and the returned
    object is empty. *)
Theorem getDefaultMutations_registers_regardless B T options (reg : Registry) :
  (getDefaultMutations B T options reg).2
    = foldl (λ r definition, registerCallback B definition r) reg (registeredCallbacks T)
  ∧ ∀ opts, (∀ slot : string, flag slot opts ≠ Some true) →
      (getDefaultMutations B T (Some opts) reg).1 = ∅
      ∧ (getDefaultMutations B T (Some opts) reg).2
        = (getDefaultMutations B T None reg).2.
Proof.
  split; [reflexivity|]. intros opts Hoff. split; [|reflexivity].
  apply map_eq. intros slot. rewrite lookup_empty. apply eq_None_not_Some.
  intros Hs%mutation_present_iff. by apply (Hoff slot).
Qed.
End MutationCoverage.

(** ** Callback names *)

Section CallbackCoverage.

Lemma list_ascii_of_string_app (a b : string) :
  list_ascii_of_string (a +:+ b)
  = (list_ascii_of_string a ++ list_ascii_of_string b)%list.
Proof. induction a as [|c a IH]; simpl; [done|]. by rewrite IH. Qed.

Lemma list_ascii_of_string_inj : Inj (=) (=) list_ascii_of_string.
Proof.
  intros a b Heq. rewrite <- (string_of_list_ascii_of_string a),
    <- (string_of_list_ascii_of_string b). by rewrite Heq.
Qed.

(** No callback suffix ends with another one. *)
Lemma callbackSuffixes_no_suffix :
  Forall (λ a, Forall (λ b,
    list_ascii_of_string a `suffix_of` list_ascii_of_string b → a = b) callbackSuffixes)
    callbackSuffixes.
Proof. apply (bool_decide_unpack _). by vm_compute. Qed.

(** A callback name splits in one way into a prefix and a suffix. *)
Lemma callback_name_split (l1 l2 s1 s2 : string) :
  s1 ∈ callbackSuffixes → s2 ∈ callbackSuffixes →
  l1 +:+ s1 = l2 +:+ s2 → l1 = l2 ∧ s1 = s2.
Proof.
  intros H1 H2 Heq.
  pose proof callbackSuffixes_no_suffix as Hno. rewrite Forall_forall in Hno.
  assert (Hs : s1 = s2).
  { apply (f_equal list_ascii_of_string) in Heq.
    rewrite !list_ascii_of_string_app in Heq.
    apply app_eq_inv in Heq as [(k & _ & Hk)|(k & _ & Hk)].
    - pose proof (Hno s1 H1) as Hb. rewrite Forall_forall in Hb.
      apply (Hb s2 H2). by exists k.
    - symmetry. pose proof (Hno s2 H2) as Hb. rewrite Forall_forall in Hb.
      apply (Hb s1 H1). by exists k. }
  split; [|done]. subst s2.
  apply list_ascii_of_string_inj.
  apply (f_equal list_ascii_of_string) in Heq.
  rewrite !list_ascii_of_string_app in Heq. by apply app_inv_tail in Heq.
Qed.

Lemma registeredCallbacks_by_suffix T :
  name <$> registeredCallbacks T = String.app (Js.toLowerCase T) <$> callbackSuffixes.
Proof. reflexivity. Qed.

Lemma registeredCallbacks_lowercased T1 T2 :
  Js.toLowerCase T1 = Js.toLowerCase T2 → registeredCallbacks T1 = registeredCallbacks T2.
Proof.
  intros Heq. unfold registeredCallbacks, registerCollectionCallbacks. by rewrite Heq.
Qed.

Lemma callbackSuffixes_NoDup : NoDup callbackSuffixes.
Proof. apply (bool_decide_unpack _). by vm_compute. Qed.

(** X10: callback names of two registrations clash only when the
    lower-cased type names agree, and then the two definitions are the
    same one: a name determines the lower-cased type name, the action and
    the phase, whatever characters the type name holds. *)
Theorem callback_names_never_clash T1 T2 d1 d2 :
  d1 ∈ registeredCallbacks T1 → d2 ∈ registeredCallbacks T2 →
  name d1 = name d2 →
  Js.toLowerCase T1 = Js.toLowerCase T2 ∧ d1 = d2.
Proof.
  intros [i Hi]%list_elem_of_lookup_1 [j Hj]%list_elem_of_lookup_1 Hname.
  assert (H1 : (name <$> registeredCallbacks T1) !! i
               = (String.app (Js.toLowerCase T1) <$> callbackSuffixes) !! i)
    by (by rewrite registeredCallbacks_by_suffix).
  assert (H2 : (name <$> registeredCallbacks T2) !! j
               = (String.app (Js.toLowerCase T2) <$> callbackSuffixes) !! j)
    by (by rewrite registeredCallbacks_by_suffix).
  rewrite !list_lookup_fmap in H1, H2. rewrite Hi in H1. rewrite Hj in H2.
  destruct (callbackSuffixes !! i) as [s1|] eqn:Hs1; [|done].
  destruct (callbackSuffixes !! j) as [s2|] eqn:Hs2; [|done].
  injection H1 as H1. injection H2 as H2.
  rewrite H1, H2 in Hname.
  apply callback_name_split in Hname as [Hl ->];
    [|by eapply list_elem_of_lookup_2..].
  split; [done|].
  assert (i = j) as -> by (eapply NoDup_lookup; eauto using callbackSuffixes_NoDup).
  rewrite (registeredCallbacks_lowercased T1 T2 Hl) in Hi. congruence.
Qed.

(** X9: the type name counts only up to letter case: two type names with
    the same lower-cased form register identical callback definitions and
    have the same create, update and delete checks. *)
Theorem type_name_case_is_ignored {User Document Collection Store Root Registry : Type}
    (B : @Backend User Document Collection Store Root Registry) T1 T2 opts user document :
  Js.toLowerCase T1 = Js.toLowerCase T2 →
  registeredCallbacks T1 = registeredCallbacks T2
  ∧ create_check B T1 opts user document = create_check B T2 opts user document
  ∧ update_check B T1 opts user document = update_check B T2 opts user document
  ∧ delete_check B T1 opts user document = delete_check B T2 opts user document.
Proof.
  intros Heq. split; [by apply registeredCallbacks_lowercased|].
  unfold create_check, update_check, delete_check. by rewrite Heq.
Qed.
End CallbackCoverage.

(** ** The change handler *)

Section CheckboxGroupCoverage.
Import MuiCheckboxGroup MuiCheckboxGroupInstance.

Lemma changeCheckbox_loop_throw (name : string) (fields : gmap string bool)
    (os : list CheckboxOption) e :
  fold_left
    (fun (value : Outcome (list string)) option =>
       match value with
       | Throw e => Throw e
       | Return value =>
           match fields !! (name +:+ "-" +:+ MuiCheckboxGroup.value option) with
           | Some true => Return (value ++ [MuiCheckboxGroup.value option])%list
           | Some false => Return value
           | None => Throw TypeError
           end
       end) os (Throw e) = Throw e.
Proof. by induction os. Qed.

Lemma changeCheckbox_loop (name : string) (fields : gmap string bool)
    (os : list CheckboxOption) (vs : list string) :
  fold_left
    (fun (value : Outcome (list string)) option =>
       match value with
       | Throw e => Throw e
       | Return value =>
           match fields !! (name +:+ "-" +:+ MuiCheckboxGroup.value option) with
           | Some true => Return (value ++ [MuiCheckboxGroup.value option])%list
           | Some false => Return value
           | None => Throw TypeError
           end
       end) os (Return vs)
  = if decide (Forall (λ o, is_Some (fields !! fieldName name (value o))) os)
    then Return (vs ++ (value <$> filter (λ o, fields !! fieldName name (value o) = Some true) os))%list
    else Throw TypeError.
Proof.
  revert vs. induction os as [|o os IH]; intros vs.
  - cbn [fold_left]. destruct (decide _) as [_|Hnot]; [by rewrite app_nil_r|].
    destruct Hnot. constructor.
  - cbn [fold_left]. unfold fieldName in *.
    destruct (fields !! (name +:+ "-" +:+ value o)) as [[]|] eqn:Hf.
    + rewrite IH. rewrite filter_cons_True by done.
      destruct (decide (Forall _ os)) as [Hall|Hnot].
      * destruct (decide (Forall _ (o :: os))) as [_|Hnot].
        -- by rewrite fmap_cons, <- app_assoc.
        -- destruct Hnot. apply Forall_cons. split; [|done]. rewrite Hf. by eexists.
      * destruct (decide (Forall _ (o :: os))) as [Hall|_]; [|done].
        apply Forall_cons in Hall as [_ Hall]. by destruct Hnot.
    + rewrite IH. rewrite filter_cons_False by (rewrite Hf; congruence).
      destruct (decide (Forall _ os)) as [Hall|Hnot].
      * destruct (decide (Forall _ (o :: os))) as [_|Hnot]; [done|].
        destruct Hnot. apply Forall_cons. split; [|done]. rewrite Hf. by eexists.
      * destruct (decide (Forall _ (o :: os))) as [Hall|_]; [|done].
        apply Forall_cons in Hall as [_ Hall]. by destruct Hnot.
    + rewrite changeCheckbox_loop_throw.
      destruct (decide (Forall _ (o :: os))) as [Hall|_]; [|done].
      apply Forall_cons in Hall as [Hs _]. rewrite Hf in Hs. by destruct Hs.
Qed.

(** X11: changeCheckbox passes to onChange the values of the options
    whose field holds a checked element, in the order of the options; when
    the field of some option holds no element it throws a type error and
    onChange is not called. *)
Theorem changeCheckbox_reports_checked (p : Props) (fields : gmap string bool) :
  let key o := fieldName (name (inputProperties p)) (value o) in
  let options := options (inputProperties p) in
  (Forall (λ o, is_Some (fields !! key o)) options →
     changeCheckbox p fields
     = Return (value <$> filter (λ o, fields !! key o = Some true) options))
  ∧ (Exists (λ o, fields !! key o = None) options →
     changeCheckbox p fields = Throw TypeError).
Proof.
  intros key options. unfold changeCheckbox. fold options.
  rewrite changeCheckbox_loop. split.
  - intros Hall. by destruct (decide _).
  - intros Hex. destruct (decide _) as [Hall|_]; [|done].
    apply Exists_exists in Hex as (o & Ho & Hnone).
    rewrite Forall_forall in Hall. specialize (Hall o Ho).
    unfold key in Hnone. rewrite Hnone in Hall. by destruct Hall.
Qed.

Lemma attach_other (kvs : list (Control * bool)) (fields : gmap string bool) (k : string) :
  k ∉ (inputRef ∘ fst <$> kvs) →
  fold_left (fun fields ce => <[inputRef ce.1 := ce.2]> fields) kvs fields !! k = fields !! k.
Proof.
  revert fields. induction kvs as [|[c e] kvs IH]; intros fields Hk; [done|].
  cbn [fold_left]. rewrite fmap_cons, not_elem_of_cons in Hk. destruct Hk as [Hne Hk].
  rewrite IH by done. simpl. by rewrite lookup_insert_ne.
Qed.

Lemma attach_lookup (kvs : list (Control * bool)) (fields : gmap string bool) c e :
  NoDup (inputRef ∘ fst <$> kvs) → (c, e) ∈ kvs →
  fold_left (fun fields ce => <[inputRef ce.1 := ce.2]> fields) kvs fields !! inputRef c = Some e.
Proof.
  revert fields. induction kvs as [|[c' e'] kvs IH]; intros fields Hnd Hin.
  - by apply elem_of_nil in Hin.
  - rewrite fmap_cons in Hnd. apply NoDup_cons in Hnd as [Hfresh Hnd].
    cbn [fold_left]. apply elem_of_cons in Hin as [[= -> ->]|Hin].
    + rewrite attach_other by done. simpl. by rewrite lookup_insert_eq.
    + by apply IH.
Qed.

Lemma inputRef_renderElement (p : Props) :
  inputRef <$> controls (renderElement p)
  = fieldName (name (inputProperties p)) ∘ value <$> options (inputProperties p).
Proof.
  unfold renderElement; simpl. generalize (options (inputProperties p)). intros os.
  apply list_eq. intros i. rewrite !list_lookup_fmap, list_lookup_imap.
  by destruct (os !! i).
Qed.

Lemma fieldName_inj (name : string) : Inj (=) (=) (fieldName name).
Proof.
  intros v1 v2 Heq. unfold fieldName in Heq.
  by apply (inj (String.app "-")), (inj (String.app name)).
Qed.

(** After the mount every option's field holds an element. *)
Lemma attachRefs_present (p : Props) (elements : list bool) (fields : gmap string bool) o :
  length elements = length (options (inputProperties p)) →
  o ∈ options (inputProperties p) →
  is_Some (attachRefs (controls (renderElement p)) elements fields
             !! fieldName (name (inputProperties p)) (value o)).
Proof.
  intros Hlen Ho. unfold attachRefs.
  assert (Hc : length (controls (renderElement p)) = length elements).
  { unfold renderElement; simpl. by rewrite length_imap. }
  revert fields.
  assert (Hk : fieldName (name (inputProperties p)) (value o)
               ∈ (inputRef <$> controls (renderElement p))).
  { rewrite inputRef_renderElement. apply list_elem_of_fmap. by exists o. }
  revert Hc Hk. generalize (controls (renderElement p)) as cs. clear Hlen Ho.
  intros cs. revert elements. induction cs as [|c cs IH]; intros [|e es] Hc Hk fields;
    simpl in *; try done.
  - by apply elem_of_nil in Hk.
  - destruct (decide (fieldName (name (inputProperties p)) (value o) ∈ (inputRef <$> cs)))
      as [Hin|Hnot].
    + apply IH; [lia|done].
    + rewrite attach_other.
      * apply elem_of_cons in Hk as [->|Hk]; [|done]. rewrite lookup_insert_eq. by eexists.
      * rewrite list_fmap_compose, fst_zip by lia. done.
Qed.

Lemma filter_by_elements (key : CheckboxOption → string) (fields : gmap string bool)
    (os : list CheckboxOption) (es : list bool) :
  length es = length os →
  (∀ i o e, os !! i = Some o → es !! i = Some e → fields !! key o = Some e) →
  filter (λ o, fields !! key o = Some true) os
  = (filter (λ oe : CheckboxOption * bool, oe.2 = true) (zip os es)).*1.
Proof.
  revert es. induction os as [|o os IH]; intros [|e es] Hlen Hf; simpl in *; try done.
  pose proof (Hf 0 o e eq_refl eq_refl) as H0.
  specialize (IH es ltac:(lia) (λ i, Hf (S i))).
  destruct e.
  - rewrite filter_cons_True by done. rewrite (filter_cons_True _ (o, true)) by done.
    by rewrite fmap_cons, IH.
  - rewrite filter_cons_False by (rewrite H0; congruence).
    rewrite (filter_cons_False _ (o, false)) by (simpl; congruence). done.
Qed.

(** X12: render, mount, change: when the option values are pairwise
    distinct and every rendered control's inputRef has stored its element,
    changeCheckbox reports exactly the values of the options whose element
    is checked, in option order. *)
Theorem changeCheckbox_after_mount (p : Props) (elements : list bool) :
  let options := options (inputProperties p) in
  NoDup (value <$> options) →
  length elements = length options →
  changeCheckbox p (attachRefs (controls (renderElement p)) elements ∅)
  = Return (value <$> (filter (λ oe : CheckboxOption * bool, oe.2 = true)
                         (zip options elements)).*1).
Proof.
  intros options Hnd Hlen.
  set (fields := attachRefs (controls (renderElement p)) elements ∅).
  assert (Hf : ∀ i o e, options !! i = Some o → elements !! i = Some e →
                 fields !! fieldName (name (inputProperties p)) (value o) = Some e).
  { intros i o e Ho He. subst fields. unfold attachRefs.
    change (fieldName (name (inputProperties p)) (value o))
      with (inputRef (renderControl p i o)).
    apply attach_lookup.
    - rewrite list_fmap_compose, fst_zip
        by (unfold renderElement; simpl; rewrite length_imap; fold options; lia).
      rewrite inputRef_renderElement, list_fmap_compose.
      apply NoDup_fmap_2; [apply fieldName_inj|done].
    - apply list_elem_of_lookup. exists i. apply lookup_zip_with_Some.
      exists (renderControl p i o), e. split_and!; try done.
      unfold renderElement; simpl. rewrite list_lookup_imap. fold options. by rewrite Ho. }
  unfold changeCheckbox. fold options. rewrite changeCheckbox_loop.
  rewrite decide_True.
  - simpl. f_equal. f_equal. by apply filter_by_elements.
  - apply Forall_forall. intros o Ho. subst fields. by apply attachRefs_present.
Qed.

(** X13: once every rendered control's inputRef has stored an element,
    changeCheckbox does not throw, also with repeated option values and
    other fields present, and what it reports is a subsequence of the
    option values. *)
Theorem changeCheckbox_after_mount_succeeds (p : Props) (elements : list bool)
    (fields : gmap string bool) :
  length elements = length (options (inputProperties p)) →
  ∃ vs, changeCheckbox p (attachRefs (controls (renderElement p)) elements fields) = Return vs
        ∧ vs `sublist_of` (value <$> options (inputProperties p)).
Proof.
  intros Hlen. unfold changeCheckbox. rewrite changeCheckbox_loop.
  rewrite decide_True.
  - eexists; split; [done|]. simpl. apply fmap_sublist, sublist_filter.
  - apply Forall_forall. intros o Ho. by apply attachRefs_present.
Qed.

(** X14: renderElement renders one control per option, in order: the
    control at an index has that index as key, the option's label and
    value, the field name changeCheckbox reads as inputRef, is disabled
    when the option or the whole group is, and is a Switch exactly for the
    switch variant. *)
Theorem renderElement_controls_mirror_options (p : Props) :
  let ip := inputProperties p in
  length (controls (renderElement p)) = length (options ip)
  ∧ ∀ i o, options ip !! i = Some o →
      ∃ c, controls (renderElement p) !! i = Some c
        ∧ key c = i
        ∧ control_label c = label o
        ∧ control_value c = value o
        ∧ inputRef c = fieldName (name ip) (value o)
        ∧ control_disabled c = disabled o || ip_disabled ip
        ∧ (component c = Switch ↔ variant p = switch).
Proof.
  intros ip. split.
  - unfold renderElement; simpl. by rewrite length_imap.
  - intros i o Ho. exists (renderControl p i o). split.
    + unfold renderElement; simpl. fold ip. by rewrite list_lookup_imap, Ho.
    + split_and!; try done. simpl. by destruct (variant p).
Qed.
End CheckboxGroupCoverage.

(** ** The further properties on the sample deployments *)

(** X1 on the posts deployment, default options. *)
Lemma create_default_check_witness :
  ∃ chk, check (createDescriptor (Posts.backend (λ _, None)) "Posts" defaultOptions) = Some chk
    ∧ ∀ user document,
        chk user document
        = Users_canDo (Posts.backend (λ _, None)) user (Js.toLowerCase "Posts" +:+ ".new").
Proof.
  exact (create_default_check (Posts.backend (λ _, None)) "Posts" None [] _ eq_refl eq_refl).
Defined.

(** X2 on the posts deployment: alice, who may create posts, creates the draft and the store holds it. *)
Lemma permitted_mutation_delegates_witness :
  mutation (createDescriptor (Posts.backend (λ _, None)) "Posts" defaultOptions) ()
      (Posts.input None (Some Posts.draft)) (Posts.context (Some Posts.alice)) Posts.world
  = (Return Posts.draft,
     {| store := <["p2" := Posts.draft]> {["p1" := Posts.hello]};
        trace := [EvCheck (Some Posts.alice) (Some Posts.draft);
                  EvCreateMutator
                    {| cm_collection := Some "posts"; cm_data := Some Posts.draft;
                       cm_currentUser := Some Posts.alice; cm_validate := true;
                       cm_context := Posts.context (Some Posts.alice) |}] |}).
Proof.
  exact (proj1 (permitted_mutation_delegates (Posts.backend (λ _, None)) "Posts" None [] ()
           (Posts.input None (Some Posts.draft)) (Posts.context (Some Posts.alice)) Posts.world)
         _ _ _ Posts.draft eq_refl eq_refl eq_refl eq_refl eq_refl).
Defined.

(** X3 on the posts deployment: alice deletes her post. *)
Lemma persistence_requires_passed_check_witness :
  ∃ evs,
    trace (delete_mutation (Posts.backend (λ _, None)) "Posts" defaultOptions ()
             (Posts.input (Some (Posts.byId "p1")) None)
             (Posts.context (Some Posts.alice)) Posts.world).2 = evs
    ∧ ((Forall (λ e, persistence_call e = false) evs
        ∧ store (delete_mutation (Posts.backend (λ _, None)) "Posts" defaultOptions ()
                   (Posts.input (Some (Posts.byId "p1")) None)
                   (Posts.context (Some Posts.alice)) Posts.world).2 = store Posts.world)
       ∨ ∃ pre e document,
           evs = (pre ++ [e])%list ∧ persistence_call e = true
           ∧ Forall (λ e, persistence_call e = false) pre
           ∧ EvCheck (Some Posts.alice) document ∈ pre
           ∧ delete_check (Posts.backend (λ _, None)) "Posts" defaultOptions
               (Some Posts.alice) document = true).
Proof.
  exact (persistence_requires_passed_check (Posts.backend (λ _, None)) "Posts" None [] ()
           (Posts.input (Some (Posts.byId "p1")) None) (Posts.context (Some Posts.alice))
           Posts.world "delete" _ _ (or_intror (or_intror eq_refl)) eq_refl eq_refl).
Defined.

(** X4 on the posts deployment with the connector unreachable. *)
Lemma connector_failure_propagates_witness :
  update_mutation offlinePosts "Posts" defaultOptions ()
      (Posts.input (Some (Posts.byId "p1")) (Some Posts.draft))
      (Posts.context (Some Posts.alice)) Posts.world
    = (Throw (Failure "offline"),
       logged Posts.world [EvGet (Some "posts") (ById (Some "p1"))])
  ∧ delete_mutation offlinePosts "Posts" defaultOptions ()
      (Posts.input (Some (Posts.byId "p1")) (Some Posts.draft))
      (Posts.context (Some Posts.alice)) Posts.world
    = (Throw (Failure "offline"),
       logged Posts.world [EvGet (Some "posts") (ById (Some "p1"))]).
Proof.
  exact (proj1 (connector_failure_propagates offlinePosts "Posts" defaultOptions ()
           (Posts.input (Some (Posts.byId "p1")) (Some Posts.draft))
           (Posts.context (Some Posts.alice)) Posts.world _ (Failure "offline") eq_refl)
         (Posts.byId "p1") eq_refl eq_refl).
Defined.

(** X5 on the posts deployment: arguments that carry data but no input. *)
Lemma malformed_arguments_fail_first_witness :
  create_mutation (Posts.backend (λ _, None)) "Posts" defaultOptions () bareArgs
      (Posts.context (Some Posts.alice)) Posts.world = (Throw TypeError, Posts.world)
  ∧ update_mutation (Posts.backend (λ _, None)) "Posts" defaultOptions () bareArgs
      (Posts.context (Some Posts.alice)) Posts.world = (Throw TypeError, Posts.world)
  ∧ upsert_mutation (Posts.backend (λ _, None)) "Posts" () bareArgs
      (Posts.context (Some Posts.alice)) Posts.world = (Throw TypeError, Posts.world)
  ∧ delete_mutation (Posts.backend (λ _, None)) "Posts" defaultOptions () bareArgs
      (Posts.context (Some Posts.alice)) Posts.world = (Throw TypeError, Posts.world).
Proof.
  exact (proj1 (malformed_arguments_fail_first (Posts.backend (λ _, None)) "Posts"
           defaultOptions () bareArgs (Posts.context (Some Posts.alice)) Posts.world) eq_refl).
Defined.

(** X6 on the posts deployment: upsert of a post that does not exist reaches the generated create handler. *)
Lemma upsert_fails_on_generated_handlers_witness :
  upsert_mutation (Posts.deployed None) "Posts" ()
      (Posts.input (Some (Posts.byId "p9")) (Some Posts.draft))
      (Posts.context (Some Posts.alice)) Posts.world
  = (Throw TypeError,
     logged Posts.world
       [EvGet (Some "posts") (BySelector (Some (Posts.byId "p9")));
        EvDispatch "create"
          {| args_input := None; args_selector := None; args_data := Some Posts.draft |}]).
Proof.
  exact (proj2 (upsert_fails_on_generated_handlers (Posts.deployed None) "Posts" ()
           (Posts.input (Some (Posts.byId "p9")) (Some Posts.draft))
           (Posts.context (Some Posts.alice)) Posts.world _
           (Posts.backend (λ _, None)) "Posts" defaultOptions eq_refl)
         eq_refl eq_refl).
Defined.

(** X7 on the posts deployment with all four generated mutations registered. *)
Lemma upsert_on_generated_mutations_always_throws_witness :
  ∃ e evs,
    upsert_mutation (Posts.deployed None) "Posts" ()
        (Posts.input (Some (Posts.byId "p1")) (Some Posts.draft))
        (Posts.context (Some Posts.alice)) Posts.world
    = (Throw e, logged Posts.world evs)
    ∧ Forall (λ ev, persistence_call ev = false ∧ ∀ u doc, ev ≠ EvCheck u doc) evs.
Proof.
  exact (upsert_on_generated_mutations_always_throws (Posts.deployed None) "Posts" ()
           (Posts.input (Some (Posts.byId "p1")) (Some Posts.draft))
           (Posts.context (Some Posts.alice)) Posts.world
           (Posts.backend (λ _, None)) "Posts" None [] (λ c _, eq_refl)).
Defined.

(** X8 on the posts deployment: the empty options object. *)
Lemma getDefaultMutations_registers_regardless_witness :
  (getDefaultMutations (Posts.backend (λ _, None)) "Posts" (Some noOptions) []).1 = ∅
  ∧ (getDefaultMutations (Posts.backend (λ _, None)) "Posts" (Some noOptions) []).2
    = (getDefaultMutations (Posts.backend (λ _, None)) "Posts" None []).2.
Proof.
  refine (proj2 (getDefaultMutations_registers_regardless (Posts.backend (λ _, None))
                   "Posts" None []) noOptions _).
  intros slot. unfold flag, noOptions; simpl. repeat case_decide; discriminate.
Defined.

(** X9 for the type names Posts and POSTS. *)
Lemma type_name_case_is_ignored_witness :
  registeredCallbacks "Posts" = registeredCallbacks "POSTS"
  ∧ create_check (Posts.backend (λ _, None)) "Posts" defaultOptions (Some Posts.alice) None
    = create_check (Posts.backend (λ _, None)) "POSTS" defaultOptions (Some Posts.alice) None
  ∧ update_check (Posts.backend (λ _, None)) "Posts" defaultOptions (Some Posts.alice) None
    = update_check (Posts.backend (λ _, None)) "POSTS" defaultOptions (Some Posts.alice) None
  ∧ delete_check (Posts.backend (λ _, None)) "Posts" defaultOptions (Some Posts.alice) None
    = delete_check (Posts.backend (λ _, None)) "POSTS" defaultOptions (Some Posts.alice) None.
Proof.
  exact (type_name_case_is_ignored (Posts.backend (λ _, None)) "Posts" "POSTS"
           defaultOptions (Some Posts.alice) None eq_refl).
Defined.

(** X10 for the tenth definition registered for Posts and for POSTS. *)
Lemma callback_names_never_clash_witness :
  Js.toLowerCase "Posts" = Js.toLowerCase "POSTS"
  ∧ {| name := "posts.delete.before";
       arguments := [("document", "The document being removed");
                     ("currentUser", "The current user")];
       runs := "sync"; returns := None;
       description := "Perform operations on a document before it's removed from the database." |}
    = {| name := "posts.delete.before";
         arguments := [("document", "The document being removed");
                       ("currentUser", "The current user")];
         runs := "sync"; returns := None;
         description := "Perform operations on a document before it's removed from the database." |}.
Proof.
  exact (callback_names_never_clash "Posts" "POSTS" _ _
           (list_elem_of_lookup_2 (registeredCallbacks "Posts") 9 _ eq_refl)
           (list_elem_of_lookup_2 (registeredCallbacks "POSTS") 9 _ eq_refl)
           eq_refl).
Defined.

(** X11 on the sample group: the first element is checked, the second is not. *)
Lemma changeCheckbox_reports_checked_witness :
  MuiCheckboxGroupInstance.changeCheckbox MuiCheckboxGroup.sample
    (<["colours-red" := true]> (<["colours-" := false]> ∅))
  = Return ["red"].
Proof.
  refine (proj1 (changeCheckbox_reports_checked MuiCheckboxGroup.sample
                   (<["colours-red" := true]> (<["colours-" := false]> ∅))) _).
  apply (bool_decide_unpack _). by vm_compute.
Defined.

(** X12 on the sample group, mounted with the second element checked. *)
Lemma changeCheckbox_after_mount_witness :
  MuiCheckboxGroupInstance.changeCheckbox MuiCheckboxGroup.sample
    (MuiCheckboxGroupInstance.attachRefs
       (MuiCheckboxGroup.controls (MuiCheckboxGroup.renderElement MuiCheckboxGroup.sample))
       [false; true] ∅)
  = Return [""].
Proof.
  refine (changeCheckbox_after_mount MuiCheckboxGroup.sample [false; true] _ eq_refl).
  apply (bool_decide_unpack _). by vm_compute.
Defined.

(** X13 on the sample group, mounted over a field left from before. *)
Lemma changeCheckbox_after_mount_succeeds_witness :
  ∃ vs,
    MuiCheckboxGroupInstance.changeCheckbox MuiCheckboxGroup.sample
      (MuiCheckboxGroupInstance.attachRefs
         (MuiCheckboxGroup.controls (MuiCheckboxGroup.renderElement MuiCheckboxGroup.sample))
         [true; true] (<["colours-red" := false]> ∅))
    = Return vs
    ∧ vs `sublist_of` ["red"; ""].
Proof.
  exact (changeCheckbox_after_mount_succeeds MuiCheckboxGroup.sample [true; true]
           (<["colours-red" := false]> ∅) eq_refl).
Defined.

(** X14 on the sample group: the control of the second option. *)
Lemma renderElement_controls_mirror_options_witness :
  ∃ c, MuiCheckboxGroup.controls (MuiCheckboxGroup.renderElement MuiCheckboxGroup.sample) !! 1
       = Some c
    ∧ MuiCheckboxGroup.key c = 1
    ∧ MuiCheckboxGroup.control_label c = "None of the above, thank you"
    ∧ MuiCheckboxGroup.control_value c = ""
    ∧ MuiCheckboxGroup.inputRef c = "colours-"
    ∧ MuiCheckboxGroup.control_disabled c = true
    ∧ (MuiCheckboxGroup.component c = MuiCheckboxGroup.Switch
       ↔ MuiCheckboxGroup.checkbox = MuiCheckboxGroup.switch).
Proof.
  exact (proj2 (renderElement_controls_mirror_options MuiCheckboxGroup.sample) 1 _ eq_refl).
Defined.
